(** * Abu Dhabi 2021 dashboard ([app.py]): data selection and chart assembly

    A shallow embedding of the dashboard's selectors, chart builders and view
    dispatcher.  Data frames live in a heap and are passed by reference, as
    Python passes them; the page is the ordered list of the widgets the
    script has emitted. *)

From Stdlib Require Import ZArith QArith Lia Lqa List Ascii String.
From stdpp Require Import base option list strings pretty.

Open Scope string_scope.
Open Scope list_scope.
Open Scope Z_scope.

(** ** Scalars and columns *)

(** A float64 cell: [None] is NaN.  Values are only copied by the script,
    except for the duration-to-seconds division, which is taken exactly. *)
Definition float := option Q.

(** A timedelta64 cell in nanoseconds: [None] is NaT (a null duration). *)
Definition timedelta := option Z.

(** A column handed to the charting library, with its dtype. *)
Inductive series :=
| Floats (l : list float)
| Ints (l : list Z)
| Bools (l : list bool).

(** ** Exceptions *)

Inductive exn :=
| AttributeError (msg : string)
| KeyError (key : string)
| IndexError (msg : string)
| IntCastingNaNError
| TypeError (msg : string)
| ProviderError (msg : string).

(** [str(e)] *)
Definition str_exn (e : exn) : string :=
  match e with
  | AttributeError msg => msg
  | KeyError key => "'" +:+ key +:+ "'"
  | IndexError msg => msg
  | IntCastingNaNError =>
      "Cannot convert non-finite values (NA or inf) to integer"
  | TypeError msg => msg
  | ProviderError msg => msg
  end.

(** ** Tables *)

(** One row of the lap table. [LapNumber] is an integral lap counter. *)
Record Lap := mkLap {
  Driver : string;
  LapNumber : Z;
  LapTime : timedelta;
  Position : float;
  IsPersonalBest : bool
}.

(** A lap table.  [LapTime_s] is the derived column the lap-time builders
    add; it is absent ([None]) in the tables the provider returns. *)
Record Laps := mkLaps {
  rows : list Lap;
  LapTime_s : option (list float)
}.

(** The telemetry series of one lap, by column.  [Brake] carries its dtype:
    the provider delivers booleans. *)
Record Telemetry := mkTelemetry {
  Distance : list float;
  Speed : list float;
  Throttle : list float;
  Brake : series;
  nGear : list Z;
  RPM : list float
}.

Inductive object :=
| OTelemetry (t : Telemetry)
| OLaps (l : Laps).

Definition loc := nat.

(** The loaded session: a reference to its lap table and the provider's
    per-lap telemetry, which may fail. *)
Record Session := mkSession {
  laps : loc;
  car_data : Lap -> exn + Telemetry
}.

(** ** Chart descriptions *)

Record Line := mkLine {
  line_color : string;
  line_width : option Z;
  line_dash : option string
}.

Record Scatter := mkScatter {
  sc_x : series;
  sc_y : series;
  sc_mode : string;
  sc_name : string;
  sc_line : Line;
  sc_marker_size : option Z
}.

Record Bar := mkBar {
  bar_x : list Z;
  bar_y : list Z;
  bar_base : Z;
  bar_orientation : string;
  bar_name : string;
  bar_marker_color : string;
  bar_marker_line : Line;
  bar_hovertemplate : string
}.

Inductive trace :=
| TScatter (s : Scatter)
| TBar (b : Bar).

Inductive shape :=
| VRect (x0 x1 : Z) (fillcolor : string) (opacity : Q) (rect_line_width : Z)
| VLine (x : Z) (l : Line).

Record Annotation := mkAnnotation {
  ann_text : string;
  ann_position : option string
}.

Record Layout := mkLayout {
  title : option string;
  xaxis_title : option string;
  yaxis_title : option string;
  yaxis_autorange : option string;
  yaxis_tickvals : option (list Z);
  yaxis_ticktext : option (list string);
  yaxis_showgrid : option bool;
  template : option string;
  hovermode : option string;
  height : option Z;
  font_size : option Z;
  showlegend : option bool
}.

Record Figure := mkFigure {
  data : list trace;
  shapes : list shape;
  annotations : list Annotation;
  layout : Layout
}.

Definition empty_layout : Layout :=
  mkLayout None None None None None None None None None None None None.

(** [go.Figure()] *)
Definition go_Figure : Figure := mkFigure [] [] [] empty_layout.

(** [fig.add_trace(t)] *)
Definition add_trace (t : trace) (fig : Figure) : Figure :=
  mkFigure (data fig ++ [t]) (shapes fig) (annotations fig) (layout fig).

(** [fig.add_vrect(x0=.., x1=.., annotation_text=.., fillcolor=.., opacity=..,
    line_width=..)] *)
Definition add_vrect (x0 x1 : Z) (text fill : string) (op : Q) (lw : Z)
    (fig : Figure) : Figure :=
  mkFigure (data fig) (shapes fig ++ [VRect x0 x1 fill op lw])
           (annotations fig ++ [mkAnnotation text None]) (layout fig).

(** [fig.add_vline(x=.., line=.., annotation_text=.., annotation_position=..)] *)
Definition add_vline (x : Z) (l : Line) (text pos : string) (fig : Figure)
    : Figure :=
  mkFigure (data fig) (shapes fig ++ [VLine x l])
           (annotations fig ++ [mkAnnotation text (Some pos)]) (layout fig).

(** [fig.update_layout(...)]: every keyword given replaces the layout's
    value, the others stay. *)
Definition kw {A} (given : option A) (old : option A) : option A :=
  match given with
  | Some v => Some v
  | None => old
  end.

Definition update_layout (l : Layout) (fig : Figure) : Figure :=
  let o := layout fig in
  mkFigure (data fig) (shapes fig) (annotations fig)
    (mkLayout (kw (title l) (title o))
              (kw (xaxis_title l) (xaxis_title o))
              (kw (yaxis_title l) (yaxis_title o))
              (kw (yaxis_autorange l) (yaxis_autorange o))
              (kw (yaxis_tickvals l) (yaxis_tickvals o))
              (kw (yaxis_ticktext l) (yaxis_ticktext o))
              (kw (yaxis_showgrid l) (yaxis_showgrid o))
              (kw (template l) (template o))
              (kw (hovermode l) (hovermode o))
              (kw (height l) (height o))
              (kw (font_size l) (font_size o))
              (kw (showlegend l) (showlegend o))).

(** ** The page and the program state *)

(** What the script has put on the page, in call order. *)
Inductive widget :=
| Markdown (body : string)
| SidebarTitle (body : string)
| Selectbox (label : string) (options : list string)
| Spinner (text : string)
| Error (body : string)
| Warning (body : string)
| Info (body : string)
| Success (body : string)
| Metric (label value delta : string)
| Columns (weights : list Z)
| Tabs (labels : list string)
| PlotlyChart (fig : Figure).

Record state := mkState {
  heap : list object;
  ui : list widget
}.

(** Computations that read and write the state and may raise. *)
Definition M (A : Type) : Type := state -> (exn + A) * state.

Definition ret {A} (a : A) : M A := fun s => (inr a, s).

Definition raise {A} (e : exn) : M A := fun s => (inl e, s).

Definition bind {A B} (m : M A) (k : A -> M B) : M B :=
  fun s =>
    match m s with
    | (inl e, s') => (inl e, s')
    | (inr a, s') => k a s'
    end.

(** [try: body  except Exception: handler] *)
Definition try_except {A} (body : M A) (handler : exn -> M A) : M A :=
  fun s =>
    match body s with
    | (inl e, s') => handler e s'
    | (inr a, s') => (inr a, s')
    end.

Declare Scope m_scope.
Delimit Scope m_scope with M.
Notation "x <- m ;; k" := (bind m (fun x => k))
  (at level 100, m at next level, right associativity) : m_scope.
Notation "m ;; k" := (bind m (fun _ => k))
  (at level 100, right associativity) : m_scope.
Open Scope m_scope.

(** A new object; its reference is the next free cell. *)
Definition alloc (o : object) : M loc :=
  fun s => (inr (length (heap s)), mkState (heap s ++ [o]) (ui s)).

Definition deref (r : loc) : M object :=
  fun s =>
    match heap s !! r with
    | Some o => (inr o, s)
    | None => (inl (TypeError "not an object"), s)
    end.

(** In-place update of the object behind [r]. *)
Definition assign (r : loc) (o : object) : M unit :=
  fun s => (inr tt, mkState (<[r := o]> (heap s)) (ui s)).

Definition laps_at (r : loc) : M Laps :=
  o <- deref r ;;
  match o with
  | OLaps l => ret l
  | OTelemetry _ => raise (TypeError "not a lap table")
  end.

Definition tel_at (r : loc) : M Telemetry :=
  o <- deref r ;;
  match o with
  | OTelemetry t => ret t
  | OLaps _ => raise (TypeError "not a telemetry series")
  end.

(** A streamlit call that puts one widget on the page. *)
Definition st (w : widget) : M unit :=
  fun s => (inr tt, mkState (heap s) (ui s ++ [w])).

(** ** Table operations (pandas) *)

(** [l[mask]]: the entries whose mask bit is set. *)
Fixpoint mask_select {A} (mask : list bool) (l : list A) : list A :=
  match mask, l with
  | b :: mask', a :: l' =>
      if b then a :: mask_select mask' l' else mask_select mask' l'
  | _, _ => []
  end.

(** [df[mask]] on a lap table: every column is cut by the same mask. *)
Definition getitem_mask (df : Laps) (mask : list bool) : Laps :=
  mkLaps (mask_select mask (rows df))
         (mask_select mask <$> LapTime_s df).

(** [col.notnull()] *)
Definition notnull (col : list timedelta) : list bool :=
  map (fun t => match t with Some _ => true | None => false end) col.

(** [col >= n] *)
Definition ge_mask (col : list Z) (n : Z) : list bool :=
  map (fun v => n <=? v) col.

(** [col == n] *)
Definition eq_mask (col : list Z) (n : Z) : list bool :=
  map (fun v => v =? n) col.

(** [Timedelta.total_seconds()]: nanoseconds over 10^9, in lowest terms. *)
Definition total_seconds (ns : Z) : Q := Qred (ns # 1000000000).

(** [col.dt.total_seconds()]: NaT becomes NaN. *)
Definition dt_total_seconds (col : list timedelta) : list float :=
  map (fun t => total_seconds <$> t) col.

(** [float -> int] truncates towards zero. *)
Definition trunc (q : Q) : Z := Z.quot (Qnum q) (Z.pos (Qden q)).

(** [col.astype(int)] *)
Definition astype_int (col : series) : exn + series :=
  match col with
  | Bools l => inr (Ints (map (fun b : bool => if b then 1 else 0) l))
  | Ints l => inr (Ints l)
  | Floats l =>
      match mapM (fun f : float => f) l with
      | Some qs => inr (Ints (map trunc qs))
      | None => inl IntCastingNaNError
      end
  end.

(** [df[f]] read through a reference. *)
Definition laps_col {A} (f : Lap -> A) (r : loc) : M (list A) :=
  df <- laps_at r ;; ret (map f (rows df)).

Definition tel_col {A} (f : Telemetry -> A) (r : loc) : M A :=
  t <- tel_at r ;; ret (f t).

(** [df['LapTime_s']] *)
Definition col_LapTime_s (r : loc) : M (list float) :=
  df <- laps_at r ;;
  match LapTime_s df with
  | Some c => ret c
  | None => raise (KeyError "LapTime_s")
  end.

(** [df[mask]] through a reference: a new table. *)
Definition select_rows (r : loc) (mask : list bool) : M loc :=
  df <- laps_at r ;; alloc (OLaps (getitem_mask df mask)).

(** [df.copy()] *)
Definition copy (r : loc) : M loc :=
  o <- deref r ;; alloc o.

(** [df['LapTime_s'] = col]: writes into the table behind [r]. *)
Definition set_LapTime_s (r : loc) (col : list float) : M unit :=
  df <- laps_at r ;; assign r (OLaps (mkLaps (rows df) (Some col))).

(** [df['Brake'] = col] *)
Definition set_Brake (r : loc) (col : series) : M unit :=
  t <- tel_at r ;;
  assign r (OTelemetry (mkTelemetry (Distance t) (Speed t) (Throttle t) col
                                    (nGear t) (RPM t))).

Definition lift {A} (x : exn + A) : M A :=
  match x with
  | inl e => raise e
  | inr a => ret a
  end.

(** ** Lap selection (fastf1) *)

(** [laps.pick_drivers(d)]: a new table with the rows of driver [d]. *)
Definition pick_drivers (r : loc) (d : string) : M loc :=
  df <- laps_at r ;;
  select_rows r (map (fun l => bool_decide (Driver l = d)) (rows df)).

(** [col.min()], skipping NaT; [None] when nothing is left. *)
Fixpoint min_time (col : list timedelta) : option Z :=
  match col with
  | [] => None
  | None :: col' => min_time col'
  | Some t :: col' =>
      match min_time col' with
      | Some m => Some (Z.min t m)
      | None => Some t
      end
  end.

Definition has_time (t : Z) (l : Lap) : bool :=
  match LapTime l with
  | Some t' => t' =? t
  | None => false
  end.

(** [Laps.pick_fastest()] of the telemetry library, which the script calls
    with the default [only_by_time=False].  As the library documents it:
    only the laps marked as personal best ([IsPersonalBest]) are candidates;
    [None] is returned when no lap satisfies this or all candidates have a
    null lap time; otherwise the result is the candidate at
    [LapTime.idxmin()], the first one with the least lap time. *)
Definition fastest (rs : list Lap) : option Lap :=
  let candidates := List.filter IsPersonalBest rs in
  match candidates with
  | [] => None
  | _ =>
      match min_time (map LapTime candidates) with
      | None => None
      | Some m => List.find (has_time m) candidates
      end
  end.

Definition pick_fastest (r : loc) : M (option Lap) :=
  df <- laps_at r ;; ret (fastest (rows df)).

(** [lap.get_telemetry()]: the provider's series for the lap as a new
    object.  On [None] the attribute lookup itself raises. *)
Definition get_telemetry (session : Session) (lap : option Lap) : M loc :=
  match lap with
  | None =>
      raise (AttributeError
               "'NoneType' object has no attribute 'get_telemetry'")
  | Some l => t <- lift (car_data session l) ;; alloc (OTelemetry t)
  end.

(** [picked.loc[laps['LapNumber'] == n]]: the mask is computed on the whole
    lap table and aligned with the picked rows by index label, so a picked
    row is kept exactly when its own lap number is [n]. *)
Definition loc_LapNumber (picked : loc) (n : Z) : M loc :=
  col <- laps_col LapNumber picked ;;
  select_rows picked (eq_mask col n).

(** [df.iloc[0]] *)
Definition iloc0 (r : loc) : M Lap :=
  df <- laps_at r ;;
  match rows df with
  | l :: _ => ret l
  | [] => raise (IndexError "single positional indexer is out-of-bounds")
  end.

(** [df[['LapNumber', 'Position']]]: a new table; the derived column is not
    among the columns kept. *)
Definition select_LapNumber_Position (r : loc) : M loc :=
  df <- laps_at r ;; alloc (OLaps (mkLaps (rows df) None)).

(** ** get_telemetry_data *)

Definition get_telemetry_data (session : Session)
    : M (loc * loc * loc * loc) :=
  let laps := laps session in
  (* Fastest laps *)
  ver_picked <- pick_drivers laps "VER" ;;
  ver_fastest <- pick_fastest ver_picked ;;
  ham_picked <- pick_drivers laps "HAM" ;;
  ham_fastest <- pick_fastest ham_picked ;;
  (* Get telemetry *)
  ver_tel <- get_telemetry session ver_fastest ;;
  ham_tel <- get_telemetry session ham_fastest ;;
  (* All laps for race pace *)
  ver_laps <- pick_drivers laps "VER" ;;
  ham_laps <- pick_drivers laps "HAM" ;;
  ret (ver_tel, ham_tel, ver_laps, ham_laps).

(** ** Chart builders *)

Definition line (color : string) (width : Z) : Line :=
  mkLine color (Some width) None.

(** [go.Scatter(x=.., y=.., mode='lines', name=.., line=..)] *)
Definition lines (x y : series) (name : string) (l : Line) : trace :=
  TScatter (mkScatter x y "lines" name l None).

(** [go.Scatter(x=.., y=.., mode='lines+markers', name=.., line=..,
    marker=dict(size=..))] *)
Definition lines_markers (x y : series) (name : string) (l : Line)
    (size : Z) : trace :=
  TScatter (mkScatter x y "lines+markers" name l (Some size)).

(** The layout keywords the telemetry builders pass. *)
Definition telemetry_layout (t xt yt : string) (fs : option Z) : Layout :=
  mkLayout (Some t) (Some xt) (Some yt) None None None None
           (Some "plotly_dark") (Some "x unified") (Some 500) fs None.

Definition create_speed_chart (ver_tel ham_tel : loc) : M Figure :=
  let fig := go_Figure in
  vx <- tel_col Distance ver_tel ;;
  vy <- tel_col Speed ver_tel ;;
  let fig :=
    add_trace (lines (Floats vx) (Floats vy) "Verstappen" (line "#E74C3C" 3))
              fig in
  hx <- tel_col Distance ham_tel ;;
  hy <- tel_col Speed ham_tel ;;
  let fig :=
    add_trace (lines (Floats hx) (Floats hy) "Hamilton" (line "#3498DB" 3))
              fig in
  ret (update_layout
         (telemetry_layout "🏎️ Speed vs Distance - Fastest Lap Comparison"
                           "Distance (m)" "Speed (km/h)" (Some 12))
         fig).

Definition create_throttle_chart (ver_tel ham_tel : loc) : M Figure :=
  let fig := go_Figure in
  vx <- tel_col Distance ver_tel ;;
  vy <- tel_col Throttle ver_tel ;;
  let fig :=
    add_trace (lines (Floats vx) (Floats vy) "Verstappen" (line "#FF6B35" 3))
              fig in
  hx <- tel_col Distance ham_tel ;;
  hy <- tel_col Throttle ham_tel ;;
  let fig :=
    add_trace (lines (Floats hx) (Floats hy) "Hamilton" (line "#2ECC71" 3))
              fig in
  ret (update_layout
         (telemetry_layout "🚀 Throttle Application vs Distance"
                           "Distance (m)" "Throttle (%)" None)
         fig).

Definition create_brake_chart (ver_tel ham_tel : loc) : M Figure :=
  (* Convert brake boolean to integer *)
  ver_tel_copy <- copy ver_tel ;;
  ham_tel_copy <- copy ham_tel ;;
  vb <- tel_col Brake ver_tel_copy ;;
  vb <- lift (astype_int vb) ;;
  set_Brake ver_tel_copy vb ;;
  hb <- tel_col Brake ham_tel_copy ;;
  hb <- lift (astype_int hb) ;;
  set_Brake ham_tel_copy hb ;;
  let fig := go_Figure in
  vx <- tel_col Distance ver_tel_copy ;;
  vy <- tel_col Brake ver_tel_copy ;;
  let fig :=
    add_trace (lines (Floats vx) vy "Verstappen" (line "#9B59B6" 3)) fig in
  hx <- tel_col Distance ham_tel_copy ;;
  hy <- tel_col Brake ham_tel_copy ;;
  let fig :=
    add_trace (lines (Floats hx) hy "Hamilton" (line "#1ABC9C" 3)) fig in
  ret (update_layout
         (telemetry_layout "🛑 Brake Application vs Distance"
                           "Distance (m)" "Brake (On/Off)" None)
         fig).

Definition create_gear_chart (ver_tel ham_tel : loc) : M Figure :=
  let fig := go_Figure in
  vx <- tel_col Distance ver_tel ;;
  vy <- tel_col nGear ver_tel ;;
  let fig :=
    add_trace (lines (Floats vx) (Ints vy) "Verstappen" (line "#E74C3C" 3))
              fig in
  hx <- tel_col Distance ham_tel ;;
  hy <- tel_col nGear ham_tel ;;
  let fig :=
    add_trace (lines (Floats hx) (Ints hy) "Hamilton" (line "#3498DB" 3))
              fig in
  ret (update_layout
         (telemetry_layout "⚙️ Gear Usage vs Distance"
                           "Distance (m)" "Gear Number" None)
         fig).

Definition create_rpm_chart (ver_tel ham_tel : loc) : M Figure :=
  let fig := go_Figure in
  vx <- tel_col Distance ver_tel ;;
  vy <- tel_col RPM ver_tel ;;
  let fig :=
    add_trace (lines (Floats vx) (Floats vy) "Verstappen" (line "#E74C3C" 3))
              fig in
  hx <- tel_col Distance ham_tel ;;
  hy <- tel_col RPM ham_tel ;;
  let fig :=
    add_trace (lines (Floats hx) (Floats hy) "Hamilton" (line "#3498DB" 3))
              fig in
  ret (update_layout
         (telemetry_layout "🔄 RPM vs Distance" "Distance (m)" "RPM" None)
         fig).

(** The first four lines of both lap-time builders, for one driver:
    [clean = laps[laps['LapTime'].notnull()].copy()] and then
    [clean['LapTime_s'] = clean['LapTime'].dt.total_seconds()]. *)
Definition clean_laps (laps : loc) : M loc :=
  times <- laps_col LapTime laps ;;
  kept <- select_rows laps (notnull times) ;;
  ret kept.

Definition add_LapTime_s (laps_clean : loc) : M unit :=
  times <- laps_col LapTime laps_clean ;;
  set_LapTime_s laps_clean (dt_total_seconds times).

Definition create_laptime_chart (ver_laps ham_laps : loc) : M Figure :=
  (* Clean data *)
  ver_kept <- clean_laps ver_laps ;;
  ver_laps_clean <- copy ver_kept ;;
  ham_kept <- clean_laps ham_laps ;;
  ham_laps_clean <- copy ham_kept ;;
  (* Convert to seconds *)
  add_LapTime_s ver_laps_clean ;;
  add_LapTime_s ham_laps_clean ;;
  let fig := go_Figure in
  vx <- laps_col LapNumber ver_laps_clean ;;
  vy <- col_LapTime_s ver_laps_clean ;;
  let fig :=
    add_trace (lines_markers (Ints vx) (Floats vy) "Verstappen"
                             (line "#E74C3C" 3) 6) fig in
  hx <- laps_col LapNumber ham_laps_clean ;;
  hy <- col_LapTime_s ham_laps_clean ;;
  let fig :=
    add_trace (lines_markers (Ints hx) (Floats hy) "Hamilton"
                             (line "#3498DB" 3) 6) fig in
  (* Add Safety Car period *)
  let fig := add_vrect 53 56 "Safety Car" "yellow" 0.3 0 fig in
  (* Add final lap marker *)
  let fig :=
    add_vline 58 (mkLine "lime" (Some 3) (Some "dash")) "Final Lap"
              "top right" fig in
  ret (update_layout
         (mkLayout (Some "⏱️ Lap Time Evolution Throughout the Race")
                   (Some "Lap Number") (Some "Lap Time (seconds)")
                   None None None None
                   (Some "plotly_dark") (Some "x unified") (Some 600)
                   None None)
         fig).

Definition create_final_laps_chart (ver_laps ham_laps : loc) : M Figure :=
  ver_kept <- clean_laps ver_laps ;;
  ver_laps_clean <- copy ver_kept ;;
  ham_kept <- clean_laps ham_laps ;;
  ham_laps_clean <- copy ham_kept ;;
  add_LapTime_s ver_laps_clean ;;
  add_LapTime_s ham_laps_clean ;;
  (* Filter final 10 laps *)
  vn <- laps_col LapNumber ver_laps_clean ;;
  ver_final <- select_rows ver_laps_clean (ge_mask vn 49) ;;
  hn <- laps_col LapNumber ham_laps_clean ;;
  ham_final <- select_rows ham_laps_clean (ge_mask hn 49) ;;
  let fig := go_Figure in
  vx <- laps_col LapNumber ver_final ;;
  vy <- col_LapTime_s ver_final ;;
  let fig :=
    add_trace (lines_markers (Ints vx) (Floats vy) "Verstappen"
                             (line "#E74C3C" 4) 8) fig in
  hx <- laps_col LapNumber ham_final ;;
  hy <- col_LapTime_s ham_final ;;
  let fig :=
    add_trace (lines_markers (Ints hx) (Floats hy) "Hamilton"
                             (line "#3498DB" 4) 8) fig in
  ret (update_layout
         (mkLayout (Some "🔥 Final 10 Laps - The Championship Decider")
                   (Some "Lap Number") (Some "Lap Time (seconds)")
                   None None None None
                   (Some "plotly_dark") (Some "x unified") (Some 500)
                   None None)
         fig).

(** One row of the hand-written stint table. *)
Record StintRow := mkStint {
  pit_Driver : string;
  pit_Tyre : string;
  pit_Start : Z;
  pit_End : Z;
  pit_Stint : Z
}.

Definition pit_data : list StintRow :=
  [ mkStint "HAM" "Medium" 0 14 0;
    mkStint "HAM" "Hard" 14 58 1;
    mkStint "VER" "Medium" 0 36 2;
    mkStint "VER" "Hard" 36 53 3;
    mkStint "VER" "Soft" 53 58 4 ].

Definition colors : list (string * string) :=
  [ ("Soft", "#E74C3C"); ("Hard", "#ECF0F1"); ("Medium", "#F39C12") ].

(** [d[key]] on a dict: a missing key raises. *)
Fixpoint dict_getitem (d : list (string * string)) (key : string)
    : exn + string :=
  match d with
  | [] => inl (KeyError key)
  | (k, v) :: d' => if bool_decide (k = key) then inr v else dict_getitem d' key
  end.

(** The body of [for _, row in pit_data.iterrows()]. *)
Definition stint_bar (row : StintRow) (color : string) : trace :=
  TBar (mkBar [pit_End row - pit_Start row] [pit_Stint row] (pit_Start row)
              "h"
              (pit_Driver row +:+ " - " +:+ pit_Tyre row)
              color (line "black" 1)
              ("<b>" +:+ pit_Driver row +:+ "</b><br>Tyre: " +:+ pit_Tyre row
               +:+ "<br>Laps: " +:+ pretty (pit_Start row) +:+ "-"
               +:+ pretty (pit_End row) +:+ "<extra></extra>")).

Fixpoint add_stint_bars (palette : list (string * string))
    (table : list StintRow) (fig : Figure) : M Figure :=
  match table with
  | [] => ret fig
  | row :: rest =>
      color <- lift (dict_getitem palette (pit_Tyre row)) ;;
      add_stint_bars palette rest (add_trace (stint_bar row color) fig)
  end.

(** The builder over a stint table; the source fixes the table inline. *)
Definition tyre_strategy_chart (table : list StintRow) : M Figure :=
  let fig := go_Figure in
  fig <- add_stint_bars colors table fig ;;
  ret (update_layout
         (mkLayout (Some "🛞 Tyre Strategy Timeline - The Winning Decision")
                   (Some "Lap Number") None None
                   (Some (map pit_Stint table))
                   (Some (map (fun row => pit_Driver row +:+ " - "
                                          +:+ pit_Tyre row) table))
                   (Some false)
                   (Some "plotly_dark") None (Some 400) None (Some false))
         fig).

Definition create_tyre_strategy_chart : M Figure :=
  tyre_strategy_chart pit_data.

Definition create_position_chart (session : Session) : M Figure :=
  let laps := laps session in
  ver_picked <- pick_drivers laps "VER" ;;
  ver_laps <- select_LapNumber_Position ver_picked ;;
  ham_picked <- pick_drivers laps "HAM" ;;
  ham_laps <- select_LapNumber_Position ham_picked ;;
  let fig := go_Figure in
  vx <- laps_col LapNumber ver_laps ;;
  vy <- laps_col Position ver_laps ;;
  let fig :=
    add_trace (lines_markers (Ints vx) (Floats vy) "Verstappen"
                             (line "#E74C3C" 4) 6) fig in
  hx <- laps_col LapNumber ham_laps ;;
  hy <- laps_col Position ham_laps ;;
  let fig :=
    add_trace (lines_markers (Ints hx) (Floats hy) "Hamilton"
                             (line "#3498DB" 4) 6) fig in
  let fig :=
    add_vline 58 (mkLine "lime" None (Some "dash")) "Final Lap Overtake"
              "top" fig in
  ret (update_layout
         (mkLayout (Some "🏆 Race Position Timeline - The Championship Moment")
                   (Some "Lap Number") (Some "Race Position")
                   (Some "reversed") None None None
                   (Some "plotly_dark") None (Some 400) None None)
         fig).

(** ** Loading the session *)

(** What the outside world answers to the calls of [load_race_data]:
    [Some e] and [inl e] mean that the call raises [e]. *)
Record Env := mkEnv {
  cache_exists : bool;
  makedirs : option exn;
  enable_cache : option exn;
  get_session : option exn;
  session_load : exn + Laps * (Lap -> exn + Telemetry)
}.

Definition call (outcome : option exn) : M unit :=
  match outcome with
  | Some e => raise e
  | None => ret tt
  end.

Definition load_race_data (env : Env) : M (option Session) :=
  try_except
    ((* Create cache directory *)
     (if negb (cache_exists env) then call (makedirs env) else ret tt) ;;
     call (enable_cache env) ;;
     st (Spinner "Loading F1 race data... This might take a moment.") ;;
     call (get_session env) ;;
     loaded <- lift (session_load env) ;;
     table <- alloc (OLaps (fst loaded)) ;;
     ret (Some (mkSession table (snd loaded))))
    (fun e =>
       st (Error ("Error loading data: " +:+ str_exn e)) ;;
       ret None).

(** ** The view dispatcher *)

Inductive section :=
| Overview
| TelemetryAnalysis
| RacePace
| StrategyAnalysis
| FinalMoments.

Definition section_label (s : section) : string :=
  match s with
  | Overview => "📊 Overview"
  | TelemetryAnalysis => "🔥 Telemetry Analysis"
  | RacePace => "⏱️ Race Pace"
  | StrategyAnalysis => "🛞 Strategy Analysis"
  | FinalMoments => "📈 Final Moments"
  end.

(** The double-quote character of the HTML attributes. *)
Definition dq : string := String (ascii_of_nat 34) EmptyString.

Definition html (tag class body : string) : string :=
  "<" +:+ tag +:+ " class=" +:+ dq +:+ class +:+ dq +:+ ">" +:+ body
  +:+ "</" +:+ tag +:+ ">".

Definition overview_text : string :=
"
        **December 12, 2021** - The Yas Marina Circuit witnessed one of F1's most dramatic conclusions. 
        Max Verstappen overcame Lewis Hamilton in the final lap to win his first World Championship.
        
        **Key Moments:**
        - 🟡 Safety Car on Lap 53 changed everything
        - 🔄 Verstappen's crucial pit stop for soft tyres
        - 🏁 DRS-assisted overtake on the main straight
        ".

Definition race_pace_text : string :=
"
            **Race Pace Analysis:**
            
            🔵 **Hamilton's Dominance**
            - Faster for most of the race
            - Consistent pace on hard tyres
            - Led by 11+ seconds before SC
            
            🔴 **Verstappen's Comeback**
            - Struggled mid-race on hards
            - Pace improved after Lap 50
            - Fresh softs made the difference
            ".

Definition hamilton_strategy_text : string :=
"
            **Hamilton's Strategy:**
            - 🟠 Medium → 🔵 Hard (Lap 14)
            - One-stop strategy
            - 44 laps on hard tyres
            - Conservative approach
            ".

Definition verstappen_strategy_text : string :=
"
            **Verstappen's Strategy:**
            - 🟠 Medium → 🔵 Hard → 🔴 Soft
            - Opportunistic SC stop (Lap 53)
            - Fresh soft tyres for final attack
            - **Race-winning decision** 🏆
            ".

Definition decisive_moment_text : string :=
"
        **The Decisive Moment:**
        - 🟢 DRS enabled on main straight
        - 🔴 Soft tyre advantage crucial
        - 🏁 Overtake completed before Turn 5
        - 🏆 World Championship decided
        ".

Definition final_lap_warning : widget :=
  Warning "Final lap telemetry data not available for detailed analysis.".

Definition load_failed : widget :=
  Error "Failed to load race data. Please check your internet connection and try again.".

Definition footer : list widget :=
  [ Markdown "---";
    Markdown "*Data Source: FastF1 | Analysis: F1 Telemetry Study*" ].

(** Header, sidebar title and section selector: the page before loading. *)
Definition page_head : list widget :=
  [ Markdown (html "h1" "main-header"
                   "🏁 Abu Dhabi 2021: How Verstappen Beat Hamilton");
    Markdown "### *A Telemetry & Strategy Analysis of F1's Most Dramatic Finish*";
    SidebarTitle "🏎️ Navigation";
    Selectbox "Choose Analysis Section:"
              (map section_label
                   [Overview; TelemetryAnalysis; RacePace; StrategyAnalysis;
                    FinalMoments]) ].

Fixpoint st_all (ws : list widget) : M unit :=
  match ws with
  | [] => ret tt
  | w :: ws' => st w ;; st_all ws'
  end.

Section Dispatcher.

(** [Telemetry.add_distance()] of the provider: a new series with the
    distance column recomputed.  What it computes is left open. *)
Variable add_distance : Telemetry -> Telemetry.

Definition with_distance (r : loc) : M loc :=
  t <- tel_at r ;; alloc (OTelemetry (add_distance t)).

(** The body of the [try] in the final section. *)
Definition final_lap_block (session : Session) : M unit :=
  (* Get final lap telemetry *)
  let laps := laps session in
  ver_picked <- pick_drivers laps "VER" ;;
  ver_sel <- loc_LapNumber ver_picked 58 ;;
  ver_lap58 <- iloc0 ver_sel ;;
  ham_picked <- pick_drivers laps "HAM" ;;
  ham_sel <- loc_LapNumber ham_picked 58 ;;
  ham_lap58 <- iloc0 ham_sel ;;
  ver_raw <- get_telemetry session (Some ver_lap58) ;;
  ver_tel_58 <- with_distance ver_raw ;;
  ham_raw <- get_telemetry session (Some ham_lap58) ;;
  ham_tel_58 <- with_distance ham_raw ;;
  (* Final lap speed chart *)
  let fig_final := go_Figure in
  vx <- tel_col Distance ver_tel_58 ;;
  vy <- tel_col Speed ver_tel_58 ;;
  let fig_final :=
    add_trace (lines (Floats vx) (Floats vy) "Verstappen"
                     (line "#E74C3C" 4)) fig_final in
  hx <- tel_col Distance ham_tel_58 ;;
  hy <- tel_col Speed ham_tel_58 ;;
  let fig_final :=
    add_trace (lines (Floats hx) (Floats hy) "Hamilton"
                     (line "#3498DB" 4)) fig_final in
  let fig_final :=
    update_layout
      (mkLayout
         (Some "🏆 Final Lap Speed Comparison - The Championship Moment")
         (Some "Distance (m)") (Some "Speed (km/h)") None None None None
         (Some "plotly_dark") None (Some 500) None None)
      fig_final in
  st (PlotlyChart fig_final).

Definition render_section (selected : section) (session : Session)
    (ver_tel ham_tel ver_laps ham_laps : loc) : M unit :=
  match selected with
  | Overview =>
      st (Markdown (html "h2" "section-header" "Race Overview")) ;;
      st (Columns [1; 1; 1]) ;;
      st (Metric "Race Winner" "Max Verstappen" "🏆") ;;
      st (Metric "Championship Decided" "Final Lap" "Lap 58") ;;
      st (Metric "Key Factor" "Tyre Strategy" "Soft vs Hard") ;;
      st (Markdown overview_text)
  | TelemetryAnalysis =>
      st (Markdown (html "h2" "section-header"
                         "Fastest Lap Telemetry Comparison")) ;;
      st (Tabs ["🏎️ Speed"; "🚀 Throttle"; "🛑 Braking"; "⚙️ Gears";
                "🔄 RPM"]) ;;
      fig <- create_speed_chart ver_tel ham_tel ;;
      st (PlotlyChart fig) ;;
      st (Info "💡 **Key Insight**: Verstappen carries more speed through technical sections, particularly Turn 5 and Turn 9.") ;;
      fig <- create_throttle_chart ver_tel ham_tel ;;
      st (PlotlyChart fig) ;;
      st (Info "💡 **Key Insight**: More aggressive throttle application by Verstappen out of slow-speed corners.") ;;
      fig <- create_brake_chart ver_tel ham_tel ;;
      st (PlotlyChart fig) ;;
      st (Info "💡 **Key Insight**: Different braking patterns show contrasting driving styles and setup approaches.") ;;
      fig <- create_gear_chart ver_tel ham_tel ;;
      st (PlotlyChart fig) ;;
      st (Info "💡 **Key Insight**: Gear usage patterns reveal acceleration and cornering strategies.") ;;
      fig <- create_rpm_chart ver_tel ham_tel ;;
      st (PlotlyChart fig) ;;
      st (Info "💡 **Key Insight**: RPM differences indicate power delivery and engine mapping strategies.")
  | RacePace =>
      st (Markdown (html "h2" "section-header" "Lap Time Evolution")) ;;
      st (Columns [2; 1]) ;;
      fig <- create_laptime_chart ver_laps ham_laps ;;
      st (PlotlyChart fig) ;;
      st (Markdown race_pace_text) ;;
      fig <- create_final_laps_chart ver_laps ham_laps ;;
      st (PlotlyChart fig)
  | StrategyAnalysis =>
      st (Markdown (html "h2" "section-header" "The Winning Strategy")) ;;
      fig <- create_tyre_strategy_chart ;;
      st (PlotlyChart fig) ;;
      st (Columns [1; 1]) ;;
      st (Markdown hamilton_strategy_text) ;;
      st (Markdown verstappen_strategy_text) ;;
      st (Success "🎯 **Strategic Masterclass**: Red Bull's decision to pit under the Safety Car gave Verstappen a crucial tyre advantage for the final restart.")
  | FinalMoments =>
      st (Markdown (html "h2" "section-header"
                         "The Championship Decider")) ;;
      fig <- create_position_chart session ;;
      st (PlotlyChart fig) ;;
      (* Final lap analysis *)
      st (Markdown "### 🏁 Lap 58 - The Overtake") ;;
      try_except (final_lap_block session)
                 (fun _ => st final_lap_warning) ;;
      st (Markdown decisive_moment_text)
  end.

(** [main()], for the section the selector returns and the answers of the
    outside world to the load. *)
Definition main (selected : section) (env : Env) : M unit :=
  (* Header and sidebar *)
  st_all page_head ;;
  (* Load data *)
  session <- load_race_data env ;;
  match session with
  | None => st load_failed
  | Some session =>
      (* Get telemetry data *)
      picked <- get_telemetry_data session ;;
      let '(ver_tel, ham_tel, ver_laps, ham_laps) := picked in
      render_section selected session ver_tel ham_tel ver_laps ham_laps ;;
      (* Footer *)
      st_all footer
  end.

End Dispatcher.

(** ** Reasoning about computations *)

(** [m] keeps the invariant [I], on normal and on exceptional exit, and
    every value it returns satisfies [post]. *)
Definition keeps {A} (I : state -> Prop) (m : M A) (post : A -> Prop)
    : Prop :=
  forall s, I s ->
    I (snd (m s)) /\ forall a, fst (m s) = inr a -> post a.

(** The heap still starts with [h0] and the page is still [u0]. *)
Definition framed (h0 : list object) (u0 : list widget) (s : state) : Prop :=
  (exists l, heap s = h0 ++ l) /\ ui s = u0.

(** Every object that exists before [m] runs is the same after it, and
    [m] puts nothing on the page. *)
Definition leaves_inputs_unchanged {A} (m : M A) : Prop :=
  forall s,
    (forall r o, heap s !! r = Some o -> heap (snd (m s)) !! r = Some o)
    /\ ui (snd (m s)) = ui s.

(** ** Intermediate objects of the builders *)

(** The copy of a series once the coerced [Brake] column is written. *)
Definition brake_copy (t : Telemetry) (b : series) : Telemetry :=
  mkTelemetry (Distance t) (Speed t) (Throttle t) b (nGear t) (RPM t).

Definition timed (l : Lap) : bool :=
  match LapTime l with
  | Some _ => true
  | None => false
  end.

(** [laps[laps['LapTime'].notnull()]] *)
Definition cleaned (df : Laps) : Laps :=
  getitem_mask df (notnull (map LapTime (rows df))).

(** The copy once [LapTime_s] has been written into it. *)
Definition with_seconds (df : Laps) : Laps :=
  mkLaps (rows df) (Some (dt_total_seconds (map LapTime (rows df)))).

(** [clean[clean['LapNumber'] >= 49]] *)
Definition final_laps (df : Laps) : Laps :=
  getitem_mask df (ge_mask (map LapNumber (rows df)) 49).

(** The rows of one driver. *)
Definition driven_by (d : string) (rs : list Lap) : list Lap :=
  List.filter (fun l => bool_decide (Driver l = d)) rs.

(** [pd.Timedelta(minutes=.., seconds=.., milliseconds=..)] in nanoseconds. *)
Definition Timedelta (minutes seconds milliseconds : Z) : Z :=
  ((minutes * 60 + seconds) * 1000 + milliseconds) * 1000000.

(** The points of a trace: its x and y columns side by side. *)
Definition points (xs : list Z) (ys : list float) : list (Z * float) :=
  combine xs ys.

(** ** The stint table by driver *)

Definition final_lap : Z := 58.

(** The [(start, end)] ranges of one driver, in table order. *)
Definition stints_of (d : string) : list (Z * Z) :=
  map (fun row => (pit_Start row, pit_End row))
      (List.filter (fun row => bool_decide (pit_Driver row = d)) pit_data).

(** Lap [n] falls in the range: start inclusive, end exclusive. *)
Definition in_stint (n : Z) (range : Z * Z) : Prop :=
  fst range <= n < snd range.

(** Each range ends where the next one starts. *)
Fixpoint contiguous (ranges : list (Z * Z)) : Prop :=
  match ranges with
  | a :: (b :: _) as rest => snd a = fst b /\ contiguous rest
  | _ => True
  end.

(** ** The rendered axis *)

(** Where the charting library draws the value [v] on a linear y-axis that
    shows the data range from [lo] to [hi], as a fraction of the plot height
    from the bottom; [autorange='reversed'] puts [hi] at the bottom. *)
Definition drawn_at (autorange : option string) (lo hi v : Q) : Q :=
  match autorange with
  | Some "reversed" => (hi - v) / (hi - lo)
  | _ => (v - lo) / (hi - lo)
  end.

(** ** Failures of the load *)

Definition spinner : widget :=
  Spinner "Loading F1 race data... This might take a moment.".

(** The calls before the spinner do not raise. *)
Definition cache_ready (env : Env) : Prop :=
  (cache_exists env = true \/ makedirs env = None)
  /\ enable_cache env = None.

(** The first call inside the [try] of [load_race_data] that raises, with
    its exception and what the spinner had put on the page by then. *)
Inductive load_raises (env : Env) (e : exn) : list widget -> Prop :=
| raises_makedirs :
    cache_exists env = false -> makedirs env = Some e ->
    load_raises env e []
| raises_enable_cache :
    cache_exists env = true \/ makedirs env = None ->
    enable_cache env = Some e ->
    load_raises env e []
| raises_get_session :
    cache_ready env -> get_session env = Some e ->
    load_raises env e [spinner]
| raises_session_load :
    cache_ready env -> get_session env = None ->
    session_load env = inl e ->
    load_raises env e [spinner].

(** ** Sample inputs *)

Definition lap (d : string) (n : Z) (t : timedelta) (pb : bool) : Lap :=
  mkLap d n t (Some (inject_Z n)) pb.

(** A provider whose series of a lap carries that lap's number. *)
Definition series_of (l : Lap) : Telemetry :=
  mkTelemetry [] [] [] (Bools []) [LapNumber l] [].

Definition provider (l : Lap) : exn + Telemetry := inr (series_of l).

(** A loaded session whose lap table holds the rows [rs]. *)
Definition race : Session := mkSession 0%nat provider.

Definition loaded (rs : list Lap) : state :=
  mkState [OLaps (mkLaps rs None)] [].

Definition ham_lap : Lap := lap "HAM" 1 (Some (Timedelta 1 26 103)) true.


(** Verstappen has laps, none with a lap time. *)
Definition ver_never_timed : list Lap :=
  [lap "VER" 1 None false; lap "VER" 2 None false; ham_lap].


(** Both drivers have a fastest lap, neither has a lap 58. *)
Definition short_race : list Lap :=
  [lap "VER" 1 (Some (Timedelta 1 30 0)) true; ham_lap].

Definition world (rs : list Lap) : Env :=
  mkEnv true None None None (inr (mkLaps rs None, provider)).

Definition offline : Env :=
  mkEnv true None None None (inl (ProviderError "connection refused")).

Definition blank : state := mkState [] [].

Definition no_attribute : exn :=
  AttributeError "'NoneType' object has no attribute 'get_telemetry'".

Definition sample_tel (b : list bool) : Telemetry :=
  mkTelemetry [Some 0%Q; Some 1%Q; Some 2%Q] [] [] (Bools b) [] [].

(** Two telemetry series, as the brake chart receives them. *)
Definition two_series : state :=
  mkState [OTelemetry (sample_tel [true; false; true]);
           OTelemetry (sample_tel [false; true; true])] [].

(** Driver A with a last lap that was never timed, driver B with three
    timed laps. *)
Definition a_laps : list Lap :=
  [lap "A" 1 (Some (Timedelta 1 30 0)) true;
   lap "A" 2 (Some (Timedelta 1 28 200)) true;
   lap "A" 3 None false].

Definition b_laps : list Lap :=
  [lap "B" 1 (Some (Timedelta 1 31 0)) true;
   lap "B" 2 (Some (Timedelta 1 27 0)) true;
   lap "B" 3 (Some (Timedelta 1 26 500)) true].

Definition two_tables : state :=
  mkState [OLaps (mkLaps a_laps None); OLaps (mkLaps b_laps None)] [].

(** A full race of one driver: laps 1 to 58, all timed. *)
Definition full_race (d : string) : list Lap :=
  map (fun n => lap d n (Some (Timedelta 1 (30 + n mod 5) 0)) true)
      (seqZ 1 58).

Definition two_full_races : state :=
  mkState [OLaps (mkLaps (full_race "VER") None);
           OLaps (mkLaps (full_race "HAM") None)] [].

(** [laps.pick_drivers(d)] as a table. *)
Definition picked (d : string) (df : Laps) : Laps :=
  getitem_mask df (map (fun l => bool_decide (Driver l = d)) (rows df)).


(** The page is still [u0]. *)
Definition page_is (u0 : list widget) (s : state) : Prop := ui s = u0.

(** ** Further auxiliary definitions *)

(** The compound of the record has a colour in the palette. *)
Definition known_compound (row : StintRow) : Prop :=
  In (pit_Tyre row) ["Soft"; "Medium"; "Hard"].

(** What the tyre-strategy builder draws for one record. *)
Definition bar_for (row : StintRow) (t : trace) : Prop :=
  exists color,
    dict_getitem colors (pit_Tyre row) = inr color
    /\ t = stint_bar row color.

(** The laps the final-laps chart plots: timed, from lap 49 on. *)
Definition in_final_chart (l : Lap) : bool :=
  timed l && (49 <=? LapNumber l).

(** The chart the final-laps builder returns, from the rows it plots. *)
Definition final_laps_figure (ver ham : list Lap) : Figure :=
  update_layout
    (mkLayout (Some "🔥 Final 10 Laps - The Championship Decider")
              (Some "Lap Number") (Some "Lap Time (seconds)")
              None None None None
              (Some "plotly_dark") (Some "x unified") (Some 500)
              None None)
    (add_trace
       (lines_markers (Ints (map LapNumber ham))
                      (Floats (map (fun l => total_seconds <$> LapTime l) ham))
                      "Hamilton" (line "#3498DB" 4) 8)
       (add_trace
          (lines_markers
             (Ints (map LapNumber ver))
             (Floats (map (fun l => total_seconds <$> LapTime l) ver))
             "Verstappen" (line "#E74C3C" 4) 8)
          go_Figure)).

(** A provider that has no telemetry for Verstappen's laps. *)
Definition no_ver_telemetry (l : Lap) : exn + Telemetry :=
  if bool_decide (Driver l = "VER")
  then inl (ProviderError "no car data")
  else inr (series_of l).

(** The state in which [main] dispatches on the section, once the session
    with lap table [tbl] has loaded in state [s] and the fastest-lap
    telemetry [tv], [th] has been selected. *)
Definition selected_state (s : state) (tbl : Laps) (tv th : Telemetry)
    : state :=
  mkState (heap s ++ [OLaps tbl; OLaps (picked "VER" tbl);
                      OLaps (picked "HAM" tbl); OTelemetry tv; OTelemetry th;
                      OLaps (picked "VER" tbl); OLaps (picked "HAM" tbl)])
          (ui s ++ page_head ++ [spinner]).

(** Every call of the load succeeds and delivers the lap table [tbl] and
    the telemetry function [cd]. *)
Definition loads (env : Env) (tbl : Laps) (cd : Lap -> exn + Telemetry)
    : Prop :=
  cache_ready env /\ get_session env = None
  /\ session_load env = inr (tbl, cd).

(** Both drivers have a fastest lap, [lv] and [lh], and the provider
    delivers their telemetry, [tv] and [th]. *)
Definition selects (tbl : Laps) (cd : Lap -> exn + Telemetry)
    (lv lh : Lap) (tv th : Telemetry) : Prop :=
  fastest (driven_by "VER" (rows tbl)) = Some lv
  /\ fastest (driven_by "HAM" (rows tbl)) = Some lh
  /\ cd lv = inr tv /\ cd lh = inr th.

Definition no_chart (w : widget) : Prop := forall fig, w <> PlotlyChart fig.

(** The widgets of the overview section. *)
Definition overview_widgets : list widget :=
  [ Markdown (html "h2" "section-header" "Race Overview");
    Columns [1; 1; 1];
    Metric "Race Winner" "Max Verstappen" "🏆";
    Metric "Championship Decided" "Final Lap" "Lap 58";
    Metric "Key Factor" "Tyre Strategy" "Soft vs Hard";
    Markdown overview_text ].

(** A session with a short race, as [main] loads it. *)
Definition short_world_lv : Lap := lap "VER" 1 (Some (Timedelta 1 30 0)) true.

(** The rows of driver [d] in the table whose lap number is 58. *)
Definition lap58_rows (d : string) (tbl : Laps) : list Lap :=
  List.filter (fun l => LapNumber l =? 58) (driven_by d (rows tbl)).

(** A race whose last lap is lap 58, with a second record for Verstappen's
    lap 58. *)
Definition finished_race : list Lap :=
  [lap "VER" 57 (Some (Timedelta 1 27 0)) true;
   lap "VER" 58 (Some (Timedelta 1 26 103)) true;
   lap "HAM" 57 (Some (Timedelta 1 27 500)) true;
   lap "HAM" 58 (Some (Timedelta 1 28 400)) false;
   lap "VER" 58 None false].

(** Why the selection of the fastest-lap telemetry fails with [e]: the
    first of the four steps that does not deliver, in source order. *)
Inductive selection_fails (tbl : Laps) (cd : Lap -> exn + Telemetry)
    (e : exn) : Prop :=
| ver_has_no_fastest_lap :
    fastest (driven_by "VER" (rows tbl)) = None ->
    e = no_attribute ->
    selection_fails tbl cd e
| ver_telemetry_raises (lv : Lap) :
    fastest (driven_by "VER" (rows tbl)) = Some lv ->
    cd lv = inl e ->
    selection_fails tbl cd e
| ham_has_no_fastest_lap (lv : Lap) (tv : Telemetry) :
    fastest (driven_by "VER" (rows tbl)) = Some lv ->
    cd lv = inr tv ->
    fastest (driven_by "HAM" (rows tbl)) = None ->
    e = no_attribute ->
    selection_fails tbl cd e
| ham_telemetry_raises (lv lh : Lap) (tv : Telemetry) :
    fastest (driven_by "VER" (rows tbl)) = Some lv ->
    cd lv = inr tv ->
    fastest (driven_by "HAM" (rows tbl)) = Some lh ->
    cd lh = inl e ->
    selection_fails tbl cd e.

(** The heap still starts with [h0] and the page with [u0]. *)
Definition grown (h0 : list object) (u0 : list widget) (s : state) : Prop :=
  (exists l, heap s = h0 ++ l) /\ (exists w, ui s = u0 ++ w).

(** * Proofs *)

(** ** Running the operations *)

Lemma bind_inr {A B} (m : M A) (k : A -> M B) s a s' :
  m s = (inr a, s') -> bind m k s = k a s'.
Proof. intros H. unfold bind. now rewrite H. Qed.

Lemma bind_inl {A B} (m : M A) (k : A -> M B) s e s' :
  m s = (inl e, s') -> bind m k s = (inl e, s').
Proof. intros H. unfold bind. now rewrite H. Qed.

Lemma lookup_fresh (h l : list object) (k : nat) :
  (h ++ l) !! (length h + k)%nat = l !! k.
Proof. rewrite lookup_app_r by lia. f_equal. lia. Qed.

Lemma lookup_old (h l : list object) (r : nat) o :
  h !! r = Some o -> (h ++ l) !! r = Some o.
Proof. apply lookup_app_l_Some. Qed.

Section Run.

Variable s : state.
Variable r : loc.

Lemma deref_run o : heap s !! r = Some o -> deref r s = (inr o, s).
Proof. intros H. unfold deref. now rewrite H. Qed.

Lemma laps_at_run df :
  heap s !! r = Some (OLaps df) -> laps_at r s = (inr df, s).
Proof.
  intros H. unfold laps_at. now rewrite (bind_inr _ _ _ _ _ (deref_run _ H)).
Qed.

Lemma tel_at_run t :
  heap s !! r = Some (OTelemetry t) -> tel_at r s = (inr t, s).
Proof.
  intros H. unfold tel_at. now rewrite (bind_inr _ _ _ _ _ (deref_run _ H)).
Qed.

Lemma laps_col_run {A} (f : Lap -> A) df :
  heap s !! r = Some (OLaps df) ->
  laps_col f r s = (inr (map f (rows df)), s).
Proof.
  intros H. unfold laps_col.
  now rewrite (bind_inr _ _ _ _ _ (laps_at_run _ H)).
Qed.

Lemma tel_col_run {A} (f : Telemetry -> A) t :
  heap s !! r = Some (OTelemetry t) -> tel_col f r s = (inr (f t), s).
Proof.
  intros H. unfold tel_col.
  now rewrite (bind_inr _ _ _ _ _ (tel_at_run _ H)).
Qed.

Lemma col_LapTime_s_run df c :
  heap s !! r = Some (OLaps df) -> LapTime_s df = Some c ->
  col_LapTime_s r s = (inr c, s).
Proof.
  intros H Hc. unfold col_LapTime_s.
  rewrite (bind_inr _ _ _ _ _ (laps_at_run _ H)). now rewrite Hc.
Qed.

Lemma select_rows_run df mask :
  heap s !! r = Some (OLaps df) ->
  select_rows r mask s =
  (inr (length (heap s)),
   mkState (heap s ++ [OLaps (getitem_mask df mask)]) (ui s)).
Proof.
  intros H. unfold select_rows.
  now rewrite (bind_inr _ _ _ _ _ (laps_at_run _ H)).
Qed.

Lemma copy_run o :
  heap s !! r = Some o ->
  copy r s = (inr (length (heap s)), mkState (heap s ++ [o]) (ui s)).
Proof.
  intros H. unfold copy. now rewrite (bind_inr _ _ _ _ _ (deref_run _ H)).
Qed.

Lemma set_LapTime_s_run df c :
  heap s !! r = Some (OLaps df) ->
  set_LapTime_s r c s =
  (inr tt,
   mkState (<[r := OLaps (mkLaps (rows df) (Some c))]> (heap s)) (ui s)).
Proof.
  intros H. unfold set_LapTime_s.
  now rewrite (bind_inr _ _ _ _ _ (laps_at_run _ H)).
Qed.

Lemma set_Brake_run t c :
  heap s !! r = Some (OTelemetry t) ->
  set_Brake r c s =
  (inr tt,
   mkState (<[r := OTelemetry (mkTelemetry (Distance t) (Speed t)
                                           (Throttle t) c (nGear t)
                                           (RPM t))]> (heap s)) (ui s)).
Proof.
  intros H. unfold set_Brake.
  now rewrite (bind_inr _ _ _ _ _ (tel_at_run _ H)).
Qed.

Lemma pick_drivers_run df d :
  heap s !! r = Some (OLaps df) ->
  pick_drivers r d s =
  (inr (length (heap s)),
   mkState (heap s ++
            [OLaps (getitem_mask df
                      (map (fun l => bool_decide (Driver l = d))
                           (rows df)))])
           (ui s)).
Proof.
  intros H. unfold pick_drivers.
  rewrite (bind_inr _ _ _ _ _ (laps_at_run _ H)).
  now apply select_rows_run.
Qed.

Lemma select_LapNumber_Position_run df :
  heap s !! r = Some (OLaps df) ->
  select_LapNumber_Position r s =
  (inr (length (heap s)),
   mkState (heap s ++ [OLaps (mkLaps (rows df) None)]) (ui s)).
Proof.
  intros H. unfold select_LapNumber_Position.
  now rewrite (bind_inr _ _ _ _ _ (laps_at_run _ H)).
Qed.

Lemma pick_fastest_run df :
  heap s !! r = Some (OLaps df) ->
  pick_fastest r s = (inr (fastest (rows df)), s).
Proof.
  intros H. unfold pick_fastest.
  now rewrite (bind_inr _ _ _ _ _ (laps_at_run _ H)).
Qed.

End Run.

Lemma get_telemetry_run session l t s :
  car_data session l = inr t ->
  get_telemetry session (Some l) s =
  (inr (length (heap s)), mkState (heap s ++ [OTelemetry t]) (ui s)).
Proof. intros H. unfold get_telemetry. now rewrite H. Qed.

(** A lookup in a heap [h ++ l] with [l] explicit: an old object by
    hypothesis, a new one by position. *)
Ltac solve_lookup :=
  cbn [heap ui];
  first [ apply lookup_old; eassumption
        | rewrite lookup_fresh; reflexivity
        | eassumption ].

Ltac tidy :=
  cbn [heap ui];
  rewrite ?insert_app_r, ?length_app, <- ?app_assoc;
  cbn [length app insert list_insert Nat.add].

Ltac run1 :=
  erewrite bind_inr;
  [ | first
        [ eapply laps_col_run; solve_lookup
        | eapply tel_col_run; solve_lookup
        | eapply col_LapTime_s_run; [ solve_lookup | reflexivity ]
        | eapply select_rows_run; solve_lookup
        | eapply copy_run; solve_lookup
        | eapply set_LapTime_s_run; solve_lookup
        | eapply set_Brake_run; solve_lookup
        | eapply pick_drivers_run; solve_lookup
        | eapply select_LapNumber_Position_run; solve_lookup
        | eapply pick_fastest_run; solve_lookup ] ];
  tidy.

(** Start a run in state [s]: name its heap and give it an explicit tail. *)
Ltac open_state s :=
  let h := fresh "h" in
  let u := fresh "u" in
  destruct s as [h u]; cbn [heap ui] in *;
  replace (mkState h u) with (mkState (h ++ []) u)
    by (now rewrite app_nil_r).

(** ** Masks and filters *)

Lemma mask_select_map {A} (p : A -> bool) (l : list A) :
  mask_select (map p l) l = List.filter p l.
Proof.
  induction l as [|a l IH]; cbn; [reflexivity|].
  destruct (p a); now rewrite IH.
Qed.

Lemma mask_select_map2 {A B} (p : A -> bool) (f : A -> B) (l : list A) :
  mask_select (map p l) (map f l) = map f (List.filter p l).
Proof.
  induction l as [|a l IH]; cbn; [reflexivity|].
  destruct (p a); cbn; now rewrite IH.
Qed.

Lemma notnull_LapTime (rs : list Lap) :
  notnull (map LapTime rs) = map timed rs.
Proof. unfold notnull. rewrite map_map. reflexivity. Qed.

Lemma rows_cleaned df : rows (cleaned df) = List.filter timed (rows df).
Proof.
  unfold cleaned, getitem_mask. cbn.
  rewrite notnull_LapTime. apply mask_select_map.
Qed.

Lemma ge_mask_LapNumber (rs : list Lap) :
  ge_mask (map LapNumber rs) 49 = map (fun l => 49 <=? LapNumber l) rs.
Proof. unfold ge_mask. now rewrite map_map. Qed.

Lemma rows_final_laps df :
  rows (final_laps df) = List.filter (fun l => 49 <=? LapNumber l) (rows df).
Proof.
  unfold final_laps, getitem_mask. cbn.
  rewrite ge_mask_LapNumber. apply mask_select_map.
Qed.

Lemma filter_map_comm {A B} (p : B -> bool) (f : A -> B) (l : list A) :
  List.filter p (map f l) = map f (List.filter (fun a => p (f a)) l).
Proof.
  induction l as [|a l IH]; cbn; [reflexivity|].
  destruct (p (f a)); cbn; now rewrite IH.
Qed.

Lemma filter_combine_map {A B C} (p : B -> bool) (f : A -> B) (g : A -> C)
    (l : list A) :
  List.filter (fun xy => p (fst xy)) (combine (map f l) (map g l)) =
  combine (map f (List.filter (fun a => p (f a)) l))
          (map g (List.filter (fun a => p (f a)) l)).
Proof.
  induction l as [|a l IH]; cbn; [reflexivity|].
  destruct (p (f a)); cbn; now rewrite IH.
Qed.

Lemma filter_all {A} (p : A -> bool) (l : list A) :
  Forall (fun a => p a = true) l -> List.filter p l = l.
Proof.
  induction 1 as [|a l Ha _ IH]; cbn; [reflexivity|].
  now rewrite Ha, IH.
Qed.

Lemma filter_split_length {A} (p q : A -> bool) (l : list A) :
  (length (List.filter p (List.filter q l))
   + length (List.filter (fun a => p a && negb (q a)) l))%nat
  = length (List.filter p l).
Proof.
  induction l as [|a l IH]; [reflexivity|].
  simpl. destruct (q a) eqn:Eq, (p a) eqn:Ep; simpl; rewrite ?Ep; simpl; lia.
Qed.



(** ** The brake chart *)

Lemma create_brake_chart_run s rv rh tv th bv bh :
  heap s !! rv = Some (OTelemetry tv) ->
  heap s !! rh = Some (OTelemetry th) ->
  astype_int (Brake tv) = inr bv ->
  astype_int (Brake th) = inr bh ->
  exists fig,
    create_brake_chart rv rh s =
    (inr fig,
     mkState (heap s ++ [OTelemetry (brake_copy tv bv);
                         OTelemetry (brake_copy th bh)]) (ui s))
    /\ data fig =
       [lines (Floats (Distance tv)) bv "Verstappen" (line "#9B59B6" 3);
        lines (Floats (Distance th)) bh "Hamilton" (line "#1ABC9C" 3)].
Proof.
  intros Hv Hh Bv Bh. open_state s.
  unfold create_brake_chart.
  run1. run1. run1.
  rewrite Bv. cbn [lift]. erewrite bind_inr by reflexivity.
  run1. run1.
  rewrite Bh. cbn [lift]. erewrite bind_inr by reflexivity.
  run1. run1. run1. run1. run1.
  eexists. split; reflexivity.
Qed.

(** ** The lap-time charts *)

Lemma clean_laps_run s r df :
  heap s !! r = Some (OLaps df) ->
  clean_laps r s =
  (inr (length (heap s)), mkState (heap s ++ [OLaps (cleaned df)]) (ui s)).
Proof.
  intros H. unfold clean_laps.
  rewrite (bind_inr _ _ _ _ _ (laps_col_run s r LapTime df H)).
  rewrite (bind_inr _ _ _ _ _ (select_rows_run s r df _ H)).
  reflexivity.
Qed.

Lemma add_LapTime_s_run s r df :
  heap s !! r = Some (OLaps df) ->
  add_LapTime_s r s =
  (inr tt, mkState (<[r := OLaps (with_seconds df)]> (heap s)) (ui s)).
Proof.
  intros H. unfold add_LapTime_s.
  rewrite (bind_inr _ _ _ _ _ (laps_col_run s r LapTime df H)).
  now rewrite (set_LapTime_s_run s r df _ H).
Qed.

Ltac run :=
  first
    [ erewrite bind_inr;
      [ | first [ eapply clean_laps_run; solve_lookup
                | eapply add_LapTime_s_run; solve_lookup ] ];
      tidy
    | run1 ].

Lemma create_laptime_chart_run s rv rh vl hl :
  heap s !! rv = Some (OLaps vl) ->
  heap s !! rh = Some (OLaps hl) ->
  exists fig,
    create_laptime_chart rv rh s =
    (inr fig,
     mkState (heap s ++ [OLaps (cleaned vl);
                         OLaps (with_seconds (cleaned vl));
                         OLaps (cleaned hl);
                         OLaps (with_seconds (cleaned hl))]) (ui s))
    /\ data fig =
       [lines_markers
          (Ints (map LapNumber (rows (cleaned vl))))
          (Floats (dt_total_seconds (map LapTime (rows (cleaned vl)))))
          "Verstappen" (line "#E74C3C" 3) 6;
        lines_markers
          (Ints (map LapNumber (rows (cleaned hl))))
          (Floats (dt_total_seconds (map LapTime (rows (cleaned hl)))))
          "Hamilton" (line "#3498DB" 3) 6]
    /\ shapes fig =
       [VRect 53 56 "yellow" 0.3 0;
        VLine 58 (mkLine "lime" (Some 3) (Some "dash"))]
    /\ annotations fig =
       [mkAnnotation "Safety Car" None;
        mkAnnotation "Final Lap" (Some "top right")].
Proof.
  intros Hv Hh. open_state s.
  unfold create_laptime_chart.
  do 10 run.
  eexists. repeat split; reflexivity.
Qed.

Lemma create_final_laps_chart_run s rv rh vl hl :
  heap s !! rv = Some (OLaps vl) ->
  heap s !! rh = Some (OLaps hl) ->
  exists fig,
    create_final_laps_chart rv rh s =
    (inr fig,
     mkState (heap s ++ [OLaps (cleaned vl);
                         OLaps (with_seconds (cleaned vl));
                         OLaps (cleaned hl);
                         OLaps (with_seconds (cleaned hl));
                         OLaps (final_laps (with_seconds (cleaned vl)));
                         OLaps (final_laps (with_seconds (cleaned hl)))])
             (ui s))
    /\ data fig =
       [lines_markers
          (Ints (map LapNumber
                     (List.filter (fun l => 49 <=? LapNumber l)
                                  (rows (cleaned vl)))))
          (Floats (map (fun l => total_seconds <$> LapTime l)
                       (List.filter (fun l => 49 <=? LapNumber l)
                                    (rows (cleaned vl)))))
          "Verstappen" (line "#E74C3C" 4) 8;
        lines_markers
          (Ints (map LapNumber
                     (List.filter (fun l => 49 <=? LapNumber l)
                                  (rows (cleaned hl)))))
          (Floats (map (fun l => total_seconds <$> LapTime l)
                       (List.filter (fun l => 49 <=? LapNumber l)
                                    (rows (cleaned hl)))))
          "Hamilton" (line "#3498DB" 4) 8]
    /\ shapes fig = [] /\ annotations fig = [].
Proof.
  intros Hv Hh. open_state s.
  unfold create_final_laps_chart.
  do 14 run.
  eexists. split; [reflexivity|].
  cbn [data update_layout add_trace go_Figure app shapes annotations
       with_seconds final_laps getitem_mask rows LapTime_s fmap option_fmap
       option_map].
  rewrite !ge_mask_LapNumber, !mask_select_map.
  unfold dt_total_seconds. rewrite !map_map, !mask_select_map2.
  repeat split; reflexivity.
Qed.

(** ** Claims on the brake and lap-time charts *)

Lemma coerced_lookup (bs : list bool) (i : nat) (b : bool) :
  bs !! i = Some b ->
  map (fun b : bool => if b then 1 else 0) bs !! i
  = Some (if b then 1 else 0).
Proof.
  intros H.
  change (map (fun b : bool => if b then 1 else 0) bs)
    with ((fun b : bool => if b then 1 else 0) <$> bs).
  rewrite list_lookup_fmap, H. reflexivity.
Qed.

(** C6: the brake coercion of [create_brake_chart] turns every boolean brake
    column into an integer column of the same length whose entry at each
    position is 1 where the input is true and 0 where it is false; the
    column true, false, true becomes 1, 0, 1. *)
Theorem brake_coercion_keeps_order_and_length s rv rh tv th bv bh :
  heap s !! rv = Some (OTelemetry tv) ->
  heap s !! rh = Some (OTelemetry th) ->
  Brake tv = Bools bv ->
  Brake th = Bools bh ->
  exists fig s' yv yh,
    create_brake_chart rv rh s = (inr fig, s')
    /\ data fig =
       [lines (Floats (Distance tv)) (Ints yv) "Verstappen"
              (line "#9B59B6" 3);
        lines (Floats (Distance th)) (Ints yh) "Hamilton"
              (line "#1ABC9C" 3)]
    /\ length yv = length bv
    /\ length yh = length bh
    /\ (forall (i : nat) (b : bool), bv !! i = Some b -> yv !! i = Some (if b then 1 else 0))
    /\ (forall (i : nat) (b : bool), bh !! i = Some b -> yh !! i = Some (if b then 1 else 0))
    /\ astype_int (Bools [true; false; true]) = inr (Ints [1; 0; 1]).
Proof.
  intros Hv Hh Bv Bh.
  destruct (create_brake_chart_run s rv rh tv th
              (Ints (map (fun b : bool => if b then 1 else 0) bv))
              (Ints (map (fun b : bool => if b then 1 else 0) bh)) Hv Hh)
    as (fig & Hrun & Hdata).
  - now rewrite Bv.
  - now rewrite Bh.
  - exists fig. eexists. eexists. eexists.
    split; [exact Hrun|]. split; [exact Hdata|].
    rewrite !length_map.
    repeat split; auto using coerced_lookup.
Qed.

Lemma brake_coercion_witness :
  exists fig s' yv yh,
    create_brake_chart 0%nat 1%nat two_series = (inr fig, s')
    /\ data fig =
       [lines (Floats (Distance (sample_tel [true; false; true]))) (Ints yv)
              "Verstappen" (line "#9B59B6" 3);
        lines (Floats (Distance (sample_tel [false; true; true]))) (Ints yh)
              "Hamilton" (line "#1ABC9C" 3)]
    /\ length yv = length [true; false; true]
    /\ length yh = length [false; true; true]
    /\ (forall (i : nat) (b : bool), ([true; false; true] : list bool) !! i = Some b ->
                    yv !! i = Some (if b then 1 else 0))
    /\ (forall (i : nat) (b : bool), ([false; true; true] : list bool) !! i = Some b ->
                    yh !! i = Some (if b then 1 else 0))
    /\ astype_int (Bools [true; false; true]) = inr (Ints [1; 0; 1]).
Proof.
  apply (brake_coercion_keeps_order_and_length two_series 0%nat 1%nat
           (sample_tel [true; false; true])
           (sample_tel [false; true; true])); reflexivity.
Defined.

Lemma points_of_rows (rs : list Lap) :
  points (map LapNumber rs) (dt_total_seconds (map LapTime rs))
  = map (fun l => (LapNumber l, total_seconds <$> LapTime l)) rs.
Proof.
  unfold points, dt_total_seconds. rewrite map_map.
  induction rs as [|l rs IH]; cbn; [reflexivity|]. now rewrite IH.
Qed.




(** The end-to-end scenario of the specification: two points for the driver
    whose third lap has no lap time, three for the other. *)
Example laptime_chart_scenario :
  exists fig s',
    create_laptime_chart 0%nat 1%nat two_tables = (inr fig, s')
    /\ data fig =
       [lines_markers (Ints [1; 2]) (Floats [Some 90%Q; Some (441 # 5)%Q])
                      "Verstappen" (line "#E74C3C" 3) 6;
        lines_markers (Ints [1; 2; 3])
                      (Floats [Some 91%Q; Some 87%Q; Some (173 # 2)%Q])
                      "Hamilton" (line "#3498DB" 3) 6].
Proof. eexists. eexists. split; vm_compute; reflexivity. Qed.

(** ** The final laps *)

Lemma slice_points (rs : list Lap) :
  points
    (map LapNumber (List.filter (fun l => 49 <=? LapNumber l) rs))
    (map (fun l => total_seconds <$> LapTime l)
         (List.filter (fun l => 49 <=? LapNumber l) rs))
  = List.filter (fun p : Z * float => 49 <=? fst p)
      (points (map LapNumber rs) (dt_total_seconds (map LapTime rs))).
Proof.
  unfold points, dt_total_seconds. rewrite map_map.
  symmetry.
  apply (filter_combine_map (fun n => 49 <=? n) LapNumber
           (fun l => total_seconds <$> LapTime l)).
Qed.

Lemma last_ten_of_58 (rs : list Lap) :
  map LapNumber rs = seqZ 1 58 ->
  map LapNumber (List.filter (fun l => 49 <=? LapNumber l) rs) = seqZ 49 10.
Proof.
  intros H.
  rewrite <- (filter_map_comm (fun n => 49 <=? n) LapNumber rs), H.
  reflexivity.
Qed.

Lemma final_of_complete_race (rs : list Lap) :
  map LapNumber rs = seqZ 1 58 ->
  Forall (fun l => timed l = true) rs ->
  map LapNumber
      (List.filter (fun l => 49 <=? LapNumber l) (List.filter timed rs))
  = seqZ 49 10.
Proof.
  intros H Ht. rewrite (filter_all _ _ Ht). now apply last_ten_of_58.
Qed.

Lemma final_of_race_with_nulls (rs : list Lap) :
  map LapNumber rs = seqZ 1 58 ->
  (length (map LapNumber
             (List.filter (fun l => (49 <=? LapNumber l)%Z)
                          (List.filter timed rs)))
   + length (List.filter (fun l => (49 <=? LapNumber l)%Z && negb (timed l))
                         rs))%nat
  = 10%nat.
Proof.
  intros H. rewrite length_map, filter_split_length.
  rewrite <- (length_map LapNumber), (last_ten_of_58 _ H). reflexivity.
Qed.

(** C5: the final-laps chart is a slice of the lap-time chart by the lap
    number bound 49: its points are exactly the points of the full chart
    with lap number at least 49, values unchanged.  For laps 1 to 58 it
    plots the ten laps 49 to 58 when all lap times are present, and ten
    minus the number of laps from 49 on that have a null lap time
    otherwise. *)
Theorem final_laps_chart_is_slice s rv rh vl hl :
  heap s !! rv = Some (OLaps vl) ->
  heap s !! rh = Some (OLaps hl) ->
  exists full s1 vx vy hx hy last s2 fx fy gx gy,
    create_laptime_chart rv rh s = (inr full, s1)
    /\ data full =
       [lines_markers (Ints vx) (Floats vy) "Verstappen"
                      (line "#E74C3C" 3) 6;
        lines_markers (Ints hx) (Floats hy) "Hamilton"
                      (line "#3498DB" 3) 6]
    /\ create_final_laps_chart rv rh s = (inr last, s2)
    /\ data last =
       [lines_markers (Ints fx) (Floats fy) "Verstappen"
                      (line "#E74C3C" 4) 8;
        lines_markers (Ints gx) (Floats gy) "Hamilton"
                      (line "#3498DB" 4) 8]
    /\ shapes last = [] /\ annotations last = []
    /\ points fx fy
       = List.filter (fun p : Z * float => 49 <=? fst p) (points vx vy)
    /\ points gx gy
       = List.filter (fun p : Z * float => 49 <=? fst p) (points hx hy)
    /\ (map LapNumber (rows vl) = seqZ 1 58 ->
        Forall (fun l => timed l = true) (rows vl) ->
        fx = seqZ 49 10 /\ length fy = 10%nat)
    /\ (map LapNumber (rows hl) = seqZ 1 58 ->
        Forall (fun l => timed l = true) (rows hl) ->
        gx = seqZ 49 10 /\ length gy = 10%nat)
    /\ (map LapNumber (rows vl) = seqZ 1 58 ->
        (length fx
         + length (List.filter
                     (fun l => (49 <=? LapNumber l)%Z && negb (timed l))
                     (rows vl)))%nat = 10%nat)
    /\ (map LapNumber (rows hl) = seqZ 1 58 ->
        (length gx
         + length (List.filter
                     (fun l => (49 <=? LapNumber l)%Z && negb (timed l))
                     (rows hl)))%nat = 10%nat).
Proof.
  intros Hv Hh.
  destruct (create_laptime_chart_run s rv rh vl hl Hv Hh)
    as (full & Hfull & Dfull & _).
  destruct (create_final_laps_chart_run s rv rh vl hl Hv Hh)
    as (last & Hlast & Dlast & Slast & Alast).
  exists full. eexists. do 4 eexists. exists last. eexists. do 4 eexists.
  split; [exact Hfull|]. split; [exact Dfull|].
  split; [exact Hlast|]. split; [exact Dlast|].
  split; [exact Slast|]. split; [exact Alast|].
  rewrite !rows_cleaned.
  split; [apply slice_points|]. split; [apply slice_points|].
  split; [|split; [|split]].
  - intros Hn Ht. rewrite length_map, <- (length_map LapNumber).
    rewrite (final_of_complete_race _ Hn Ht). now split.
  - intros Hn Ht. rewrite length_map, <- (length_map LapNumber).
    rewrite (final_of_complete_race _ Hn Ht). now split.
  - apply final_of_race_with_nulls.
  - apply final_of_race_with_nulls.
Qed.

Lemma final_laps_chart_witness :
  exists full s1 vx vy hx hy last s2 fx fy gx gy,
    create_laptime_chart 0%nat 1%nat two_full_races = (inr full, s1)
    /\ data full =
       [lines_markers (Ints vx) (Floats vy) "Verstappen"
                      (line "#E74C3C" 3) 6;
        lines_markers (Ints hx) (Floats hy) "Hamilton"
                      (line "#3498DB" 3) 6]
    /\ create_final_laps_chart 0%nat 1%nat two_full_races = (inr last, s2)
    /\ data last =
       [lines_markers (Ints fx) (Floats fy) "Verstappen"
                      (line "#E74C3C" 4) 8;
        lines_markers (Ints gx) (Floats gy) "Hamilton"
                      (line "#3498DB" 4) 8]
    /\ shapes last = [] /\ annotations last = []
    /\ points fx fy
       = List.filter (fun p : Z * float => 49 <=? fst p) (points vx vy)
    /\ points gx gy
       = List.filter (fun p : Z * float => 49 <=? fst p) (points hx hy)
    /\ (map LapNumber (full_race "VER") = seqZ 1 58 ->
        Forall (fun l => timed l = true) (full_race "VER") ->
        fx = seqZ 49 10 /\ length fy = 10%nat)
    /\ (map LapNumber (full_race "HAM") = seqZ 1 58 ->
        Forall (fun l => timed l = true) (full_race "HAM") ->
        gx = seqZ 49 10 /\ length gy = 10%nat)
    /\ (map LapNumber (full_race "VER") = seqZ 1 58 ->
        (length fx
         + length (List.filter
                     (fun l => (49 <=? LapNumber l)%Z && negb (timed l))
                     (full_race "VER")))%nat = 10%nat)
    /\ (map LapNumber (full_race "HAM") = seqZ 1 58 ->
        (length gx
         + length (List.filter
                     (fun l => (49 <=? LapNumber l)%Z && negb (timed l))
                     (full_race "HAM")))%nat = 10%nat).
Proof.
  apply (final_laps_chart_is_slice two_full_races 0%nat 1%nat
           (mkLaps (full_race "VER") None) (mkLaps (full_race "HAM") None));
    reflexivity.
Defined.

(** On a complete race the chart shows laps 49 to 58 of each driver. *)
Example final_laps_of_full_race :
  exists last s2 fy gy,
    create_final_laps_chart 0%nat 1%nat two_full_races = (inr last, s2)
    /\ data last =
       [lines_markers (Ints [49; 50; 51; 52; 53; 54; 55; 56; 57; 58])
                      (Floats fy) "Verstappen" (line "#E74C3C" 4) 8;
        lines_markers (Ints [49; 50; 51; 52; 53; 54; 55; 56; 57; 58])
                      (Floats gy) "Hamilton" (line "#3498DB" 4) 8].
Proof. do 4 eexists. split; vm_compute; reflexivity. Qed.

(** ** The tyre-strategy chart *)

Lemma palette_miss (key : string) :
  ~ In key ["Soft"; "Medium"; "Hard"] ->
  dict_getitem colors key = inl (KeyError key).
Proof.
  intros H. cbn.
  repeat (case_bool_decide; [exfalso; apply H; cbn; subst; tauto|]).
  reflexivity.
Qed.

Lemma palette_hit (key : string) :
  In key ["Soft"; "Medium"; "Hard"] ->
  exists color, dict_getitem colors key = inr color.
Proof.
  intros [<-|[<-|[<-|[]]]]; eexists; reflexivity.
Qed.

Lemma add_stint_bars_unknown (table : list StintRow) :
  Exists (fun row => ~ In (pit_Tyre row) ["Soft"; "Medium"; "Hard"]) table ->
  forall fig s,
    exists key,
      ~ In key ["Soft"; "Medium"; "Hard"]
      /\ add_stint_bars colors table fig s = (inl (KeyError key), s).
Proof.
  induction table as [|row rest IH]; intros Hex fig s.
  - inversion Hex.
  - cbn [add_stint_bars].
    destruct (In_dec string_dec (pit_Tyre row) ["Soft"; "Medium"; "Hard"])
      as [Hin|Hout].
    + destruct (palette_hit _ Hin) as [color Hc].
      rewrite Hc. cbn [lift]. erewrite bind_inr by reflexivity.
      apply IH. inversion Hex; subst; [contradiction | assumption].
    + exists (pit_Tyre row). split; [exact Hout|].
      rewrite (palette_miss _ Hout). reflexivity.
Qed.



Ltac stint_cases :=
  repeat match goal with
         | H : Exists _ (_ :: _) |- _ => inversion H; clear H; subst
         | H : Exists _ [] |- _ => inversion H
         end.

Lemma ham_stints : stints_of "HAM" = [(0, 14); (14, 58)].
Proof. reflexivity. Qed.

Lemma ver_stints : stints_of "VER" = [(0, 36); (36, 53); (53, 58)].
Proof. reflexivity. Qed.

Lemma ham_stints_cover (n : Z) :
  0 <= n < final_lap <-> Exists (in_stint n) (stints_of "HAM").
Proof.
  rewrite ham_stints. unfold final_lap, in_stint. split.
  - intros H. destruct (Z_lt_dec n 14).
    + apply Exists_cons_hd. cbn. lia.
    + apply Exists_cons_tl, Exists_cons_hd. cbn. lia.
  - intros H. stint_cases; cbn in *; lia.
Qed.

Lemma ver_stints_cover (n : Z) :
  0 <= n < final_lap <-> Exists (in_stint n) (stints_of "VER").
Proof.
  rewrite ver_stints. unfold final_lap, in_stint. split.
  - intros H. destruct (Z_lt_dec n 36); [|destruct (Z_lt_dec n 53)].
    + apply Exists_cons_hd. cbn. lia.
    + apply Exists_cons_tl, Exists_cons_hd. cbn. lia.
    + apply Exists_cons_tl, Exists_cons_tl, Exists_cons_hd. cbn. lia.
  - intros H. stint_cases; cbn in *; lia.
Qed.

Lemma stints_disjoint (d : string) :
  In d ["HAM"; "VER"] ->
  forall (i j : nat) (a b : Z * Z) (n : Z),
    i <> j ->
    stints_of d !! i = Some a -> stints_of d !! j = Some b ->
    ~ (in_stint n a /\ in_stint n b).
Proof.
  intros [<-|[<-|[]]] i j a b n Hij Ha Hb [Hna Hnb];
    rewrite ?ham_stints, ?ver_stints in Ha, Hb;
    unfold in_stint in *;
    destruct i as [|[|[|i]]]; destruct j as [|[|[|j]]];
    cbn in Ha, Hb; try discriminate; try congruence;
    inversion Ha; inversion Hb; subst; cbn in *; lia.
Qed.

Lemma driver_stints_partition (d : string) :
  In d ["HAM"; "VER"] ->
  contiguous (stints_of d)
  /\ fst <$> head (stints_of d) = Some 0
  /\ snd <$> last (stints_of d) = Some final_lap
  /\ (forall n : Z,
        0 <= n < final_lap <-> Exists (in_stint n) (stints_of d))
  /\ (forall (i j : nat) (a b : Z * Z) (n : Z),
        i <> j ->
        stints_of d !! i = Some a -> stints_of d !! j = Some b ->
        ~ (in_stint n a /\ in_stint n b)).
Proof.
  intros Hd. split; [|split; [|split; [|split]]].
  - destruct Hd as [<-|[<-|[]]];
      rewrite ?ham_stints, ?ver_stints; cbn; tauto.
  - destruct Hd as [<-|[<-|[]]]; reflexivity.
  - destruct Hd as [<-|[<-|[]]]; reflexivity.
  - destruct Hd as [<-|[<-|[]]];
      [apply ham_stints_cover | apply ver_stints_cover].
  - now apply stints_disjoint.
Qed.

(** C4: in the stint table of [create_tyre_strategy_chart], the ranges of
    each driver, start inclusive and end exclusive, are contiguous, start at
    lap 0 and end at the final lap 58, cover every lap in between and no lap
    twice; each record becomes one horizontal bar from its start lap over
    its length, on the row given by the record's sequence index 0 to 4, not
    by its driver. *)
Theorem stints_partition_the_race :
  Forall (fun row => In (pit_Driver row) ["HAM"; "VER"]) pit_data
  /\ Forall
       (fun d =>
          contiguous (stints_of d)
          /\ fst <$> head (stints_of d) = Some 0
          /\ snd <$> last (stints_of d) = Some final_lap
          /\ (forall n : Z,
                0 <= n < final_lap <-> Exists (in_stint n) (stints_of d))
          /\ (forall (i j : nat) (a b : Z * Z) (n : Z),
                i <> j ->
                stints_of d !! i = Some a -> stints_of d !! j = Some b ->
                ~ (in_stint n a /\ in_stint n b)))
       ["HAM"; "VER"]
  /\ map pit_Stint pit_data = [0; 1; 2; 3; 4]
  /\ forall s : state,
       exists fig,
         create_tyre_strategy_chart s = (inr fig, s)
         /\ Forall2
              (fun row t =>
                 exists b,
                   t = TBar b
                   /\ bar_orientation b = "h"
                   /\ bar_y b = [pit_Stint row]
                   /\ bar_base b = pit_Start row
                   /\ bar_x b = [pit_End row - pit_Start row]
                   /\ dict_getitem colors (pit_Tyre row)
                      = inr (bar_marker_color b))
              pit_data (data fig)
         /\ yaxis_tickvals (layout fig) = Some [0; 1; 2; 3; 4]
         /\ yaxis_ticktext (layout fig)
            = Some ["HAM - Medium"; "HAM - Hard"; "VER - Medium";
                    "VER - Hard"; "VER - Soft"].
Proof.
  split; [repeat constructor; cbn; tauto|].
  split.
  - apply Forall_cons; split;
      [apply driver_stints_partition; cbn; tauto|].
    apply Forall_cons; split;
      [apply driver_stints_partition; cbn; tauto|].
    apply Forall_nil. exact I.
  - split; [reflexivity|].
    intros s. eexists. split; [reflexivity|].
    split; [|split; reflexivity].
    vm_compute.
    repeat (constructor; [eexists; repeat split; reflexivity|]).
    constructor.
Qed.

(** ** The race-position chart *)

Lemma rows_picked d df : rows (picked d df) = driven_by d (rows df).
Proof. unfold picked, driven_by. cbn. apply mask_select_map. Qed.

Lemma create_position_chart_run session s df :
  heap s !! laps session = Some (OLaps df) ->
  exists fig,
    create_position_chart session s =
    (inr fig,
     mkState (heap s ++ [OLaps (picked "VER" df);
                         OLaps (mkLaps (rows (picked "VER" df)) None);
                         OLaps (picked "HAM" df);
                         OLaps (mkLaps (rows (picked "HAM" df)) None)])
             (ui s))
    /\ data fig =
       [lines_markers (Ints (map LapNumber (driven_by "VER" (rows df))))
                      (Floats (map Position (driven_by "VER" (rows df))))
                      "Verstappen" (line "#E74C3C" 4) 6;
        lines_markers (Ints (map LapNumber (driven_by "HAM" (rows df))))
                      (Floats (map Position (driven_by "HAM" (rows df))))
                      "Hamilton" (line "#3498DB" 4) 6]
    /\ yaxis_autorange (layout fig) = Some "reversed".
Proof.
  intros H. open_state s.
  unfold create_position_chart.
  do 8 run.
  eexists. split; [reflexivity|].
  cbn [data update_layout add_trace add_vline go_Figure app rows].
  fold (picked "VER" df). fold (picked "HAM" df).
  rewrite !rows_picked. split; reflexivity.
Qed.

Lemma reversed_axis_flips (lo hi p1 p2 : Q) :
  (lo < hi)%Q -> (p1 < p2)%Q ->
  (drawn_at (Some "reversed") lo hi p2 < drawn_at (Some "reversed") lo hi p1)%Q.
Proof.
  intros Hr Hp. cbn. unfold Qdiv.
  apply Qmult_lt_compat_r.
  - apply Qinv_lt_0_compat. lra.
  - lra.
Qed.

(** C9: the race-position chart is always built with its y-axis reversed, so
    of two race positions the numerically lower one is drawn higher. *)
Theorem position_chart_axis_is_reversed session s df :
  heap s !! laps session = Some (OLaps df) ->
  exists fig s',
    create_position_chart session s = (inr fig, s')
    /\ yaxis_autorange (layout fig) = Some "reversed"
    /\ data fig =
       [lines_markers (Ints (map LapNumber (driven_by "VER" (rows df))))
                      (Floats (map Position (driven_by "VER" (rows df))))
                      "Verstappen" (line "#E74C3C" 4) 6;
        lines_markers (Ints (map LapNumber (driven_by "HAM" (rows df))))
                      (Floats (map Position (driven_by "HAM" (rows df))))
                      "Hamilton" (line "#3498DB" 4) 6]
    /\ forall lo hi p1 p2 : Q,
         (lo < hi)%Q -> (p1 < p2)%Q ->
         (drawn_at (yaxis_autorange (layout fig)) lo hi p2
          < drawn_at (yaxis_autorange (layout fig)) lo hi p1)%Q.
Proof.
  intros H.
  destruct (create_position_chart_run session s df H)
    as (fig & Hrun & Hdata & Haxis).
  exists fig. eexists. split; [exact Hrun|]. split; [exact Haxis|].
  split; [exact Hdata|].
  rewrite Haxis. apply reversed_axis_flips.
Qed.

Lemma position_chart_witness :
  exists fig s',
    create_position_chart race (loaded short_race) = (inr fig, s')
    /\ yaxis_autorange (layout fig) = Some "reversed"
    /\ data fig =
       [lines_markers (Ints (map LapNumber (driven_by "VER" short_race)))
                      (Floats (map Position (driven_by "VER" short_race)))
                      "Verstappen" (line "#E74C3C" 4) 6;
        lines_markers (Ints (map LapNumber (driven_by "HAM" short_race)))
                      (Floats (map Position (driven_by "HAM" short_race)))
                      "Hamilton" (line "#3498DB" 4) 6]
    /\ forall lo hi p1 p2 : Q,
         (lo < hi)%Q -> (p1 < p2)%Q ->
         (drawn_at (yaxis_autorange (layout fig)) lo hi p2
          < drawn_at (yaxis_autorange (layout fig)) lo hi p1)%Q.
Proof.
  apply (position_chart_axis_is_reversed race (loaded short_race)
           (mkLaps short_race None)).
  reflexivity.
Defined.

(** ** Invariants of computations *)

Section Invariant.

Variable I : state -> Prop.
(** The references a computation may write through. *)
Variable own : loc -> Prop.

Hypothesis I_alloc :
  forall h u o, I (mkState h u) -> I (mkState (h ++ [o]) u) /\ own (length h).
Hypothesis I_assign :
  forall h u r o, own r -> I (mkState h u) -> I (mkState (<[r := o]> h) u).

Lemma keeps_ret {A} (a : A) (post : A -> Prop) :
  post a -> keeps I (ret a) post.
Proof. intros Ha s Hs. split; [exact Hs|]. cbn. now intros ? [= <-]. Qed.

Lemma keeps_raise {A} (e : exn) (post : A -> Prop) :
  keeps I (raise e) post.
Proof. intros s Hs. split; [exact Hs|]. cbn. discriminate. Qed.

Lemma keeps_bind {A B} (m : M A) (k : A -> M B) mid post :
  keeps I m mid ->
  (forall a, mid a -> keeps I (k a) post) ->
  keeps I (bind m k) post.
Proof.
  intros Hm Hk s Hs. unfold bind.
  destruct (Hm s Hs) as [Hi Hp].
  destruct (m s) as [[e|a] s']; cbn in *.
  - split; [exact Hi | discriminate].
  - apply (Hk a (Hp a eq_refl) s' Hi).
Qed.

Lemma keeps_any {A} (m : M A) mid :
  keeps I m mid -> keeps I m (fun _ => True).
Proof. intros Hm s Hs. split; [apply (Hm s Hs) | trivial]. Qed.

Lemma keeps_lift {A} (x : exn + A) : keeps I (lift x) (fun _ => True).
Proof. destruct x; [apply keeps_raise | now apply keeps_ret]. Qed.

Lemma keeps_deref r : keeps I (deref r) (fun _ => True).
Proof.
  intros s Hs. unfold deref. destruct (heap s !! r); cbn; auto.
Qed.

Lemma keeps_alloc o : keeps I (alloc o) own.
Proof.
  intros [h u] Hs. unfold alloc. cbn.
  destruct (I_alloc h u o Hs) as [Hi Ho].
  split; [exact Hi|]. now intros ? [= <-].
Qed.

Lemma keeps_assign r o : own r -> keeps I (assign r o) (fun _ => True).
Proof.
  intros Hr [h u] Hs. unfold assign. cbn. split; [|trivial].
  now apply I_assign.
Qed.

Lemma keeps_laps_at r : keeps I (laps_at r) (fun _ => True).
Proof.
  unfold laps_at. eapply keeps_bind; [apply keeps_deref|].
  intros [t|l] _; [apply keeps_raise | now apply keeps_ret].
Qed.

Lemma keeps_tel_at r : keeps I (tel_at r) (fun _ => True).
Proof.
  unfold tel_at. eapply keeps_bind; [apply keeps_deref|].
  intros [t|l] _; [now apply keeps_ret | apply keeps_raise].
Qed.

Lemma keeps_laps_col {A} (f : Lap -> A) r :
  keeps I (laps_col f r) (fun _ => True).
Proof.
  unfold laps_col. eapply keeps_bind; [apply keeps_laps_at|].
  intros; now apply keeps_ret.
Qed.

Lemma keeps_tel_col {A} (f : Telemetry -> A) r :
  keeps I (tel_col f r) (fun _ => True).
Proof.
  unfold tel_col. eapply keeps_bind; [apply keeps_tel_at|].
  intros; now apply keeps_ret.
Qed.

Lemma keeps_col_LapTime_s r : keeps I (col_LapTime_s r) (fun _ => True).
Proof.
  unfold col_LapTime_s. eapply keeps_bind; [apply keeps_laps_at|].
  intros df _. destruct (LapTime_s df);
    [now apply keeps_ret | apply keeps_raise].
Qed.

Lemma keeps_select_rows r mask : keeps I (select_rows r mask) own.
Proof.
  unfold select_rows. eapply keeps_bind; [apply keeps_laps_at|].
  intros; apply keeps_alloc.
Qed.

Lemma keeps_copy r : keeps I (copy r) own.
Proof.
  unfold copy. eapply keeps_bind; [apply keeps_deref|].
  intros; apply keeps_alloc.
Qed.

Lemma keeps_set_LapTime_s r c :
  own r -> keeps I (set_LapTime_s r c) (fun _ => True).
Proof.
  intros Hr. unfold set_LapTime_s.
  eapply keeps_bind; [apply keeps_laps_at|].
  intros; now apply keeps_assign.
Qed.

Lemma keeps_set_Brake r c :
  own r -> keeps I (set_Brake r c) (fun _ => True).
Proof.
  intros Hr. unfold set_Brake.
  eapply keeps_bind; [apply keeps_tel_at|].
  intros; now apply keeps_assign.
Qed.

Lemma keeps_pick_drivers r d : keeps I (pick_drivers r d) own.
Proof.
  unfold pick_drivers. eapply keeps_bind; [apply keeps_laps_at|].
  intros; apply keeps_select_rows.
Qed.

Lemma keeps_select_LapNumber_Position r :
  keeps I (select_LapNumber_Position r) own.
Proof.
  unfold select_LapNumber_Position.
  eapply keeps_bind; [apply keeps_laps_at|].
  intros; apply keeps_alloc.
Qed.

Lemma keeps_pick_fastest r : keeps I (pick_fastest r) (fun _ => True).
Proof.
  unfold pick_fastest. eapply keeps_bind; [apply keeps_laps_at|].
  intros; now apply keeps_ret.
Qed.

Lemma keeps_get_telemetry session l : keeps I (get_telemetry session l) own.
Proof.
  unfold get_telemetry. destruct l as [l|]; [|apply keeps_raise].
  eapply keeps_bind; [apply keeps_lift|]. intros; apply keeps_alloc.
Qed.

Lemma keeps_clean_laps r : keeps I (clean_laps r) own.
Proof.
  unfold clean_laps. eapply keeps_bind; [apply keeps_laps_col|].
  intros times _. eapply keeps_bind; [apply keeps_select_rows|].
  intros kept Hk. now apply keeps_ret.
Qed.

Lemma keeps_add_LapTime_s r :
  own r -> keeps I (add_LapTime_s r) (fun _ => True).
Proof.
  intros Hr. unfold add_LapTime_s.
  eapply keeps_bind; [apply keeps_laps_col|].
  intros; now apply keeps_set_LapTime_s.
Qed.

Lemma keeps_loc_LapNumber r n : keeps I (loc_LapNumber r n) own.
Proof.
  unfold loc_LapNumber. eapply keeps_bind; [apply keeps_laps_col|].
  intros; apply keeps_select_rows.
Qed.

Lemma keeps_iloc0 r : keeps I (iloc0 r) (fun _ => True).
Proof.
  unfold iloc0. eapply keeps_bind; [apply keeps_laps_at|].
  intros df _. destruct (rows df);
    [apply keeps_raise | now apply keeps_ret].
Qed.

End Invariant.

(** One step of a computation: the lemma of its first operation, for the
    invariant of the goal and the references [own] it may write through. *)
Ltac keeps_op own :=
  lazymatch goal with
  | |- keeps ?I (laps_col _ _) _ => eapply (keeps_laps_col I)
  | |- keeps ?I (tel_col _ _) _ => eapply (keeps_tel_col I)
  | |- keeps ?I (col_LapTime_s _) _ => eapply (keeps_col_LapTime_s I)
  | |- keeps ?I (select_rows _ _) _ => eapply (keeps_select_rows I own)
  | |- keeps ?I (copy _) _ => eapply (keeps_copy I own)
  | |- keeps ?I (clean_laps _) _ => eapply (keeps_clean_laps I own)
  | |- keeps ?I (pick_drivers _ _) _ => eapply (keeps_pick_drivers I own)
  | |- keeps ?I (select_LapNumber_Position _) _ =>
      eapply (keeps_select_LapNumber_Position I own)
  | |- keeps ?I (pick_fastest _) _ => eapply (keeps_pick_fastest I)
  | |- keeps ?I (get_telemetry _ _) _ => eapply (keeps_get_telemetry I own)
  | |- keeps ?I (loc_LapNumber _ _) _ => eapply (keeps_loc_LapNumber I own)
  | |- keeps ?I (iloc0 _) _ => eapply (keeps_iloc0 I)
  | |- keeps ?I (lift _) _ => eapply (keeps_lift I)
  | |- keeps ?I (set_LapTime_s _ _) _ => eapply (keeps_set_LapTime_s I own)
  | |- keeps ?I (set_Brake _ _) _ => eapply (keeps_set_Brake I own)
  | |- keeps ?I (add_LapTime_s _) _ => eapply (keeps_add_LapTime_s I own)
  end;
  eassumption.

Ltac keeps_auto own :=
  repeat (eapply keeps_bind; [keeps_op own | intros ? ?]);
  try (apply keeps_ret; exact I).

(** ** Builders do not touch what they are given *)

Section Frame.

Variable h0 : list object.
Variable u0 : list widget.

Lemma framed_alloc h u o :
  framed h0 u0 (mkState h u) ->
  framed h0 u0 (mkState (h ++ [o]) u) /\ (length h0 <= length h)%nat.
Proof.
  intros [[l Hl] Hu]. cbn in *. subst h. split; [split|].
  - exists (l ++ [o]). cbn. now rewrite app_assoc.
  - exact Hu.
  - rewrite length_app. lia.
Qed.

Lemma framed_assign h u r o :
  (length h0 <= r)%nat -> framed h0 u0 (mkState h u) ->
  framed h0 u0 (mkState (<[r := o]> h) u).
Proof.
  intros Hr [[l Hl] Hu]. cbn in *. subst h. split; [|exact Hu].
  exists (<[(r - length h0)%nat := o]> l). cbn.
  rewrite <- insert_app_r. f_equal. lia.
Qed.

(** Bring the two facts about [framed] into the context. *)
Ltac framing := pose proof framed_alloc; pose proof framed_assign.

(** Step through a builder; it may write through the references at or
    beyond the end of [h0]. *)
Ltac frame :=
  framing;
  match goal with
  | |- keeps (framed ?h _) _ _ =>
      keeps_auto (fun r : loc => (length h <= r)%nat)
  end.

Lemma frame_speed rv rh :
  keeps (framed h0 u0) (create_speed_chart rv rh) (fun _ => True).
Proof. unfold create_speed_chart. frame. Qed.

Lemma frame_throttle rv rh :
  keeps (framed h0 u0) (create_throttle_chart rv rh) (fun _ => True).
Proof. unfold create_throttle_chart. frame. Qed.

Lemma frame_brake rv rh :
  keeps (framed h0 u0) (create_brake_chart rv rh) (fun _ => True).
Proof. unfold create_brake_chart. frame. Qed.

Lemma frame_gear rv rh :
  keeps (framed h0 u0) (create_gear_chart rv rh) (fun _ => True).
Proof. unfold create_gear_chart. frame. Qed.

Lemma frame_rpm rv rh :
  keeps (framed h0 u0) (create_rpm_chart rv rh) (fun _ => True).
Proof. unfold create_rpm_chart. frame. Qed.

Lemma frame_laptime rv rh :
  keeps (framed h0 u0) (create_laptime_chart rv rh) (fun _ => True).
Proof. unfold create_laptime_chart. frame. Qed.

Lemma frame_final_laps rv rh :
  keeps (framed h0 u0) (create_final_laps_chart rv rh) (fun _ => True).
Proof. unfold create_final_laps_chart. frame. Qed.

Lemma frame_position session :
  keeps (framed h0 u0) (create_position_chart session) (fun _ => True).
Proof. unfold create_position_chart. frame. Qed.

Lemma frame_stint_bars palette table fig :
  keeps (framed h0 u0) (add_stint_bars palette table fig) (fun _ => True).
Proof.
  framing. revert fig. induction table as [|row rest IH]; intros fig; cbn.
  - now apply keeps_ret.
  - eapply keeps_bind; [apply keeps_lift|]. intros; apply IH.
Qed.

Lemma frame_tyre_strategy table :
  keeps (framed h0 u0) (tyre_strategy_chart table) (fun _ => True).
Proof.
  unfold tyre_strategy_chart.
  eapply keeps_bind; [apply frame_stint_bars|].
  intros; now apply keeps_ret.
Qed.

Lemma frame_get_telemetry_data session :
  keeps (framed h0 u0) (get_telemetry_data session) (fun _ => True).
Proof. unfold get_telemetry_data. frame. Qed.

End Frame.

Lemma framed_unchanged {A} (m : M A) :
  (forall h0 u0, keeps (framed h0 u0) m (fun _ => True)) ->
  leaves_inputs_unchanged m.
Proof.
  intros H s.
  destruct (H (heap s) (ui s) s) as [[[l Hl] Hu] _].
  - split; [exists []; now rewrite app_nil_r | reflexivity].
  - split; [|exact Hu].
    intros r o Hr. rewrite Hl. now apply lookup_app_l_Some.
Qed.

(** C8: no chart builder changes a telemetry series or lap table it is
    given: after any builder has run, on normal or exceptional exit, every
    object that existed before is the same, and nothing was put on the
    page; the brake coercion and the seconds column are written into new
    copies.  The overlays of the lap-time chart leave its series as they
    were. *)
Theorem builders_leave_inputs_unchanged :
  (forall rv rh, leaves_inputs_unchanged (create_speed_chart rv rh))
  /\ (forall rv rh, leaves_inputs_unchanged (create_throttle_chart rv rh))
  /\ (forall rv rh, leaves_inputs_unchanged (create_brake_chart rv rh))
  /\ (forall rv rh, leaves_inputs_unchanged (create_gear_chart rv rh))
  /\ (forall rv rh, leaves_inputs_unchanged (create_rpm_chart rv rh))
  /\ (forall rv rh, leaves_inputs_unchanged (create_laptime_chart rv rh))
  /\ (forall rv rh, leaves_inputs_unchanged (create_final_laps_chart rv rh))
  /\ leaves_inputs_unchanged create_tyre_strategy_chart
  /\ (forall session,
        leaves_inputs_unchanged (create_position_chart session))
  /\ (forall x0 x1 text fill op lw fig,
        data (add_vrect x0 x1 text fill op lw fig) = data fig)
  /\ (forall x l text pos fig,
        data (add_vline x l text pos fig) = data fig).
Proof.
  split; [intros; apply framed_unchanged; intros; apply frame_speed|].
  split; [intros; apply framed_unchanged; intros; apply frame_throttle|].
  split; [intros; apply framed_unchanged; intros; apply frame_brake|].
  split; [intros; apply framed_unchanged; intros; apply frame_gear|].
  split; [intros; apply framed_unchanged; intros; apply frame_rpm|].
  split; [intros; apply framed_unchanged; intros; apply frame_laptime|].
  split; [intros; apply framed_unchanged; intros; apply frame_final_laps|].
  split; [apply framed_unchanged; intros; apply frame_tyre_strategy|].
  split; [intros; apply framed_unchanged; intros; apply frame_position|].
  split; reflexivity.
Qed.

(** ** The fastest lap *)






(** ** get_telemetry_data *)

Ltac run_tel H :=
  erewrite bind_inr; [ | eapply get_telemetry_run; exact H ]; tidy.

Lemma get_telemetry_data_run session s df lv lh tv th :
  heap s !! laps session = Some (OLaps df) ->
  fastest (driven_by "VER" (rows df)) = Some lv ->
  fastest (driven_by "HAM" (rows df)) = Some lh ->
  car_data session lv = inr tv ->
  car_data session lh = inr th ->
  get_telemetry_data session s =
  (inr ((length (heap s) + 2)%nat, (length (heap s) + 3)%nat,
        (length (heap s) + 4)%nat, (length (heap s) + 5)%nat),
   mkState (heap s ++ [OLaps (picked "VER" df); OLaps (picked "HAM" df);
                       OTelemetry tv; OTelemetry th;
                       OLaps (picked "VER" df); OLaps (picked "HAM" df)])
           (ui s)).
Proof.
  intros H Hv Hh Tv Th. open_state s.
  unfold get_telemetry_data.
  do 4 run.
  fold (picked "VER" df). fold (picked "HAM" df).
  rewrite !rows_picked, Hv, Hh.
  run_tel Tv. run_tel Th.
  do 2 run.
  reflexivity.
Qed.

Lemma get_telemetry_data_no_ver session s df :
  heap s !! laps session = Some (OLaps df) ->
  fastest (driven_by "VER" (rows df)) = None ->
  fst (get_telemetry_data session s) = inl no_attribute.
Proof.
  intros H Hv. open_state s.
  unfold get_telemetry_data.
  do 4 run.
  fold (picked "VER" df). fold (picked "HAM" df).
  rewrite !rows_picked, Hv. reflexivity.
Qed.

Lemma get_telemetry_data_no_ham session s df lv tv :
  heap s !! laps session = Some (OLaps df) ->
  fastest (driven_by "VER" (rows df)) = Some lv ->
  car_data session lv = inr tv ->
  fastest (driven_by "HAM" (rows df)) = None ->
  fst (get_telemetry_data session s) = inl no_attribute.
Proof.
  intros H Hv Tv Hh. open_state s.
  unfold get_telemetry_data.
  do 4 run.
  fold (picked "VER" df). fold (picked "HAM" df).
  rewrite !rows_picked, Hv, Hh.
  run_tel Tv. reflexivity.
Qed.

Lemma in_driven_by (d : string) (rs : list Lap) (l : Lap) :
  In l (driven_by d rs) <-> In l rs /\ Driver l = d.
Proof.
  unfold driven_by. rewrite filter_In, bool_decide_eq_true. reflexivity.
Qed.

(** In the scenario of the specification the third lap of driver B, timed
    at 86.5 s, is the one selected. *)
Example fastest_of_scenario :
  fastest (driven_by "B" (a_laps ++ b_laps))
  = Some (lap "B" 3 (Some (Timedelta 1 26 500)) true).
Proof. reflexivity. Qed.




(** ** Loading *)

Lemma st_run w s : st w s = (inr tt, mkState (heap s) (ui s ++ [w])).
Proof. reflexivity. Qed.

Lemma st_all_run ws s :
  st_all ws s = (inr tt, mkState (heap s) (ui s ++ ws)).
Proof.
  revert s. induction ws as [|w ws IH]; intros [h u]; cbn [st_all].
  - unfold ret. cbn. now rewrite app_nil_r.
  - rewrite (bind_inr _ _ _ _ _ (st_run w _)), IH. cbn.
    now rewrite <- (app_assoc u).
Qed.

Ltac load_steps :=
  unfold load_race_data, try_except, bind, call, st, ret, raise, lift, alloc;
  cbn [negb heap ui fst snd];
  repeat match goal with
         | H : _ = _ |- _ =>
             rewrite H; unfold raise, ret; cbn [negb heap ui fst snd]
         end.

Lemma load_race_data_fails env e shown s :
  load_raises env e shown ->
  load_race_data env s =
  (inr None,
   mkState (heap s)
           (ui s ++ shown ++ [Error ("Error loading data: " +:+ str_exn e)])).
Proof.
  intros H.
  destruct H as [Hc Hm | [Hc|Hm] He | [[Hc|Hm] He] Hg | [[Hc|Hm] He] Hg Hl].
  - load_steps. reflexivity.
  - load_steps. reflexivity.
  - load_steps; destruct (cache_exists env); load_steps; reflexivity.
  - load_steps. now rewrite <- (app_assoc (ui s)).
  - load_steps; destruct (cache_exists env); load_steps;
      now rewrite <- (app_assoc (ui s)).
  - load_steps. now rewrite <- (app_assoc (ui s)).
  - load_steps; destruct (cache_exists env); load_steps;
      now rewrite <- (app_assoc (ui s)).
Qed.

Lemma load_race_data_loads env tbl cd s :
  cache_ready env -> get_session env = None ->
  session_load env = inr (tbl, cd) ->
  load_race_data env s =
  (inr (Some (mkSession (length (heap s)) cd)),
   mkState (heap s ++ [OLaps tbl]) (ui s ++ [spinner])).
Proof.
  intros [[Hc|Hm] He] Hg Hl.
  - load_steps. reflexivity.
  - load_steps; destruct (cache_exists env); load_steps; reflexivity.
Qed.

Lemma load_race_data_never_raises env s :
  exists o s', load_race_data env s = (inr o, s').
Proof.
  unfold load_race_data, try_except.
  match goal with |- context [match ?b s with _ => _ end] =>
    destruct (b s) as [[e|o] s'] end; eexists; eexists; reflexivity.
Qed.

(** ** The dispatcher *)

Lemma load_raises_shown env e shown :
  load_raises env e shown -> shown = [] \/ shown = [spinner].
Proof. destruct 1; auto. Qed.

(** C10: when a call made while loading the session raises, whatever the
    exception, [load_race_data] reports it and returns [None] instead of
    raising, and [main], for every section, then shows its one error message
    and returns: the heap is as before and the page holds the header, what
    the load itself displayed and that message, and no chart. *)
Theorem load_failure_stops_main add_distance selected env s e shown :
  load_raises env e shown ->
  load_race_data env s
  = (inr None,
     mkState (heap s)
             (ui s ++ shown
              ++ [Error ("Error loading data: " +:+ str_exn e)]))
  /\ main add_distance selected env s
     = (inr tt,
        mkState (heap s)
                (ui s ++ page_head ++ shown
                 ++ [Error ("Error loading data: " +:+ str_exn e);
                     load_failed]))
  /\ Forall (fun w => forall fig, w <> PlotlyChart fig)
            (page_head ++ shown
             ++ [Error ("Error loading data: " +:+ str_exn e); load_failed])
  /\ forall env' s0, exists o s', load_race_data env' s0 = (inr o, s').
Proof.
  intros H.
  split; [now apply load_race_data_fails|].
  split; [|split; [|intros; apply load_race_data_never_raises]].
  - unfold main.
    rewrite (bind_inr _ _ _ _ _ (st_all_run page_head s)).
    rewrite (bind_inr _ _ _ _ _ (load_race_data_fails env e shown _ H)).
    unfold load_failed. rewrite st_run. cbn [heap ui].
    f_equal. f_equal. rewrite <- !(app_assoc (ui s)).
    f_equal. rewrite <- !(app_assoc page_head). f_equal.
    rewrite <- (app_assoc shown). reflexivity.
  - apply Forall_app. split; [repeat constructor; discriminate|].
    apply Forall_app. split.
    + destruct (load_raises_shown _ _ _ H) as [->| ->];
        repeat constructor; discriminate.
    + repeat constructor; discriminate.
Qed.

Lemma load_failure_witness :
  load_race_data offline blank
  = (inr None,
     mkState (heap blank)
             (ui blank ++ [spinner]
              ++ [Error ("Error loading data: "
                         +:+ str_exn (ProviderError "connection refused"))]))
  /\ main (fun t => t) RacePace offline blank
     = (inr tt,
        mkState (heap blank)
                (ui blank ++ page_head ++ [spinner]
                 ++ [Error ("Error loading data: "
                            +:+ str_exn (ProviderError "connection refused"));
                     load_failed]))
  /\ Forall (fun w => forall fig, w <> PlotlyChart fig)
            (page_head ++ [spinner]
             ++ [Error ("Error loading data: "
                        +:+ str_exn (ProviderError "connection refused"));
                 load_failed])
  /\ forall env' s0, exists o s', load_race_data env' s0 = (inr o, s').
Proof.
  apply (load_failure_stops_main (fun t => t) RacePace offline blank
           (ProviderError "connection refused") [spinner]).
  apply raises_session_load; [split; [left|]; reflexivity | reflexivity
                             | reflexivity].
Defined.

Section Page.

Variable u0 : list widget.

Lemma page_alloc h u o :
  page_is u0 (mkState h u) -> page_is u0 (mkState (h ++ [o]) u) /\ True.
Proof. intros H. split; [exact H | exact I]. Qed.

Lemma page_assign h u (r : loc) o :
  True -> page_is u0 (mkState h u) -> page_is u0 (mkState (<[r := o]> h) u).
Proof. intros _ H. exact H. Qed.

Variable add_distance : Telemetry -> Telemetry.


End Page.




Lemma loc_LapNumber_run s r df n :
  heap s !! r = Some (OLaps df) ->
  loc_LapNumber r n s =
  (inr (length (heap s)),
   mkState (heap s ++
            [OLaps (getitem_mask df (eq_mask (map LapNumber (rows df)) n))])
           (ui s)).
Proof.
  intros H. unfold loc_LapNumber.
  rewrite (bind_inr _ _ _ _ _ (laps_col_run s r LapNumber df H)).
  now apply select_rows_run.
Qed.




Lemma bind_assoc {A B C} (m : M A) (k : A -> M B) (k' : B -> M C) s :
  bind (bind m k) k' s = bind m (fun a => bind (k a) k') s.
Proof.
  unfold bind. destruct (m s) as [[e|a] s1]; reflexivity.
Qed.




(** * Further properties of the code *)

(** ** Telemetry charts *)



(** ** The tyre-strategy builder on any table *)

Lemma known_dec (row : StintRow) : {known_compound row} + {~ known_compound row}.
Proof. apply (In_dec string_dec). Qed.

Lemma add_stint_bars_known (table : list StintRow) :
  Forall known_compound table ->
  forall fig s,
    exists bars,
      add_stint_bars colors table fig s
      = (inr (mkFigure (data fig ++ bars) (shapes fig) (annotations fig)
                       (layout fig)), s)
      /\ Forall2 bar_for table bars.
Proof.
  induction 1 as [|row rest Hrow _ IH]; intros fig s.
  - exists []. cbn. unfold ret. rewrite app_nil_r. destruct fig.
    split; [reflexivity | constructor].
  - destruct (palette_hit _ Hrow) as [color Hc].
    cbn [add_stint_bars]. rewrite Hc. cbn [lift].
    erewrite bind_inr by reflexivity.
    destruct (IH (add_trace (stint_bar row color) fig) s)
      as (bars & Hrun & Hbars).
    exists (stint_bar row color :: bars). rewrite Hrun. cbn.
    rewrite <- (app_assoc (data fig)). split; [reflexivity|].
    constructor; [|exact Hbars]. exists color. auto.
Qed.

(** X2: on any stint table the tyre-strategy builder succeeds exactly when
    every compound of the table is Soft, Medium or Hard.  When it succeeds
    the state is untouched and the chart has one bar per record, in table
    order, in the record's palette colour, and the axis ticks are the
    records' indices labelled driver - compound. *)
Theorem tyre_chart_succeeds_iff_compounds_known
    (table : list StintRow) (s : state) :
  (Forall known_compound table <->
   exists fig s', tyre_strategy_chart table s = (inr fig, s'))
  /\ forall fig s',
       tyre_strategy_chart table s = (inr fig, s') ->
       s' = s
       /\ Forall2 bar_for table (data fig)
       /\ length (data fig) = length table
       /\ yaxis_tickvals (layout fig) = Some (map pit_Stint table)
       /\ yaxis_ticktext (layout fig)
          = Some (map (fun row => pit_Driver row +:+ " - " +:+ pit_Tyre row)
                      table).
Proof.
  assert (Hok : Forall known_compound table ->
                exists bars,
                  Forall2 bar_for table bars
                  /\ exists fig,
                       tyre_strategy_chart table s = (inr fig, s)
                       /\ data fig = bars
                       /\ yaxis_tickvals (layout fig)
                          = Some (map pit_Stint table)
                       /\ yaxis_ticktext (layout fig)
                          = Some (map (fun row => pit_Driver row +:+ " - "
                                                  +:+ pit_Tyre row) table)).
  { intros Hk.
    destruct (add_stint_bars_known table Hk go_Figure s)
      as (bars & Hrun & Hbars).
    exists bars. split; [exact Hbars|].
    unfold tyre_strategy_chart. rewrite (bind_inr _ _ _ _ _ Hrun).
    eexists. split; [reflexivity|]. repeat split; reflexivity. }
  assert (Hbad : ~ Forall known_compound table ->
                 exists key, tyre_strategy_chart table s
                             = (inl (KeyError key), s)).
  { intros Hn.
    assert (Hex : Exists (fun row => ~ known_compound row) table).
    { apply neg_Forall_Exists_neg; [apply known_dec | exact Hn]. }
    destruct (add_stint_bars_unknown table Hex go_Figure s)
      as (key & _ & Hrun).
    exists key. unfold tyre_strategy_chart.
    now rewrite (bind_inl _ _ _ _ _ Hrun). }
  split.
  - split.
    + intros Hk. destruct (Hok Hk) as (bars & _ & fig & Hrun & _). eauto.
    + intros (fig & s' & Hrun).
      destruct (List.Forall_dec known_compound known_dec table) as [Hk|Hn];
        [exact Hk|].
      destruct (Hbad Hn) as [key Hkey]. rewrite Hkey in Hrun.
      discriminate Hrun.
  - intros fig s' Hrun.
    destruct (List.Forall_dec known_compound known_dec table) as [Hk|Hn].
    + destruct (Hok Hk) as (bars & Hbars & fig' & Hrun' & Hd & Hv & Ht).
      rewrite Hrun' in Hrun. injection Hrun as <- <-.
      rewrite Hd. repeat split; auto.
      symmetry. eapply Forall2_length. exact Hbars.
    + destruct (Hbad Hn) as [key Hkey]. rewrite Hkey in Hrun.
      discriminate Hrun.
Qed.

(** X3: when a table has an unknown compound, the error names the compound
    of the first such record; the records after it are not looked at. *)
Theorem tyre_chart_reports_first_unknown_compound
    (before after : list StintRow) (row : StintRow) (s : state) :
  Forall known_compound before ->
  ~ known_compound row ->
  tyre_strategy_chart (before ++ row :: after) s
  = (inl (KeyError (pit_Tyre row)), s).
Proof.
  intros Hb Hrow.
  assert (H : forall fig,
             add_stint_bars colors (before ++ row :: after) fig s
             = (inl (KeyError (pit_Tyre row)), s)).
  { induction Hb as [|r rest Hr _ IH]; intros fig; cbn [app add_stint_bars].
    - rewrite (palette_miss _ Hrow). reflexivity.
    - destruct (palette_hit _ Hr) as [color Hc]. rewrite Hc. cbn [lift].
      erewrite bind_inr by reflexivity. apply IH. }
  unfold tyre_strategy_chart. now rewrite (bind_inl _ _ _ _ _ (H _)).
Qed.

Lemma first_unknown_compound_witness :
  tyre_strategy_chart
    ([mkStint "HAM" "Medium" 0 14 0]
     ++ mkStint "HAM" "Wet" 14 30 1
     :: [mkStint "HAM" "Intermediate" 30 58 2]) blank
  = (inl (KeyError (pit_Tyre (mkStint "HAM" "Wet" 14 30 1))), blank).
Proof.
  apply (tyre_chart_reports_first_unknown_compound
           [mkStint "HAM" "Medium" 0 14 0]
           [mkStint "HAM" "Intermediate" 30 58 2]
           (mkStint "HAM" "Wet" 14 30 1) blank).
  - constructor; [|constructor]. unfold known_compound. cbn. tauto.
  - unfold known_compound. cbn. intros [H|[H|[H|[]]]]; discriminate H.
Defined.

(** ** Lap-time charts *)



(** X4: the safety-car band from lap 53 to 56 and the final-lap marker at
    lap 58 are the only overlays of the lap-time chart and do not depend on
    the data: they are drawn the same for every pair of lap tables, also for
    tables without any lap, where the two series are empty. *)
Theorem laptime_chart_overlays_do_not_depend_on_data s rv rh vl hl :
  heap s !! rv = Some (OLaps vl) ->
  heap s !! rh = Some (OLaps hl) ->
  exists fig s',
    create_laptime_chart rv rh s = (inr fig, s')
    /\ shapes fig
       = [VRect 53 56 "yellow" 0.3 0;
          VLine 58 (mkLine "lime" (Some 3) (Some "dash"))]
    /\ annotations fig
       = [mkAnnotation "Safety Car" None;
          mkAnnotation "Final Lap" (Some "top right")]
    /\ length (data fig) = 2%nat
    /\ (Forall (fun l => timed l = false) (rows vl) ->
        Forall (fun l => timed l = false) (rows hl) ->
        data fig
        = [lines_markers (Ints []) (Floats []) "Verstappen"
                         (line "#E74C3C" 3) 6;
           lines_markers (Ints []) (Floats []) "Hamilton"
                         (line "#3498DB" 3) 6]).
Proof.
  intros Hv Hh.
  destruct (create_laptime_chart_run s rv rh vl hl Hv Hh)
    as (fig & Hrun & Hdata & Hshapes & Hann).
  exists fig. eexists. split; [exact Hrun|].
  split; [exact Hshapes|]. split; [exact Hann|].
  rewrite Hdata. split; [reflexivity|].
  intros Nv Nh. rewrite !rows_cleaned.
  assert (E : forall rs, Forall (fun l => timed l = false) rs ->
                         List.filter timed rs = []).
  { induction 1 as [|l rs Hl _ IH]; cbn; [reflexivity|]. now rewrite Hl. }
  now rewrite (E _ Nv), (E _ Nh).
Qed.

Lemma laptime_overlays_witness :
  exists fig s',
    create_laptime_chart 0%nat 1%nat two_tables = (inr fig, s')
    /\ shapes fig
       = [VRect 53 56 "yellow" 0.3 0;
          VLine 58 (mkLine "lime" (Some 3) (Some "dash"))]
    /\ annotations fig
       = [mkAnnotation "Safety Car" None;
          mkAnnotation "Final Lap" (Some "top right")]
    /\ length (data fig) = 2%nat
    /\ (Forall (fun l => timed l = false) (rows (mkLaps a_laps None)) ->
        Forall (fun l => timed l = false) (rows (mkLaps b_laps None)) ->
        data fig
        = [lines_markers (Ints []) (Floats []) "Verstappen"
                         (line "#E74C3C" 3) 6;
           lines_markers (Ints []) (Floats []) "Hamilton"
                         (line "#3498DB" 3) 6]).
Proof.
  apply (laptime_chart_overlays_do_not_depend_on_data two_tables 0%nat 1%nat
           (mkLaps a_laps None) (mkLaps b_laps None)); reflexivity.
Defined.



Lemma filter_timed_final (rs : list Lap) :
  List.filter (fun l => 49 <=? LapNumber l) (List.filter timed rs)
  = List.filter in_final_chart rs.
Proof.
  unfold in_final_chart.
  induction rs as [|l rs IH]; cbn; [reflexivity|].
  destruct (timed l); cbn; [|exact IH].
  destruct (49 <=? LapNumber l); now rewrite IH.
Qed.

Lemma create_final_laps_chart_figure s rv rh vl hl :
  heap s !! rv = Some (OLaps vl) ->
  heap s !! rh = Some (OLaps hl) ->
  fst (create_final_laps_chart rv rh s)
  = inr (final_laps_figure (List.filter in_final_chart (rows vl))
                           (List.filter in_final_chart (rows hl))).
Proof.
  intros Hv Hh. open_state s.
  unfold create_final_laps_chart.
  do 14 run.
  cbn [fst ret with_seconds final_laps getitem_mask rows LapTime_s fmap
       option_fmap option_map].
  unfold final_laps_figure.
  rewrite !ge_mask_LapNumber, !mask_select_map.
  unfold dt_total_seconds. rewrite !map_map, !mask_select_map2.
  rewrite !rows_cleaned, !filter_timed_final. reflexivity.
Qed.

(** X6: the final-laps chart is determined by the timed laps numbered 49 or
    more: two calls whose lap tables agree on those laps return the same
    chart, whatever the earlier or untimed laps, the other columns' history
    or the rest of the heap are. *)
Theorem final_laps_chart_ignores_other_laps
    s s' rv rh rv' rh' vl hl vl' hl' :
  heap s !! rv = Some (OLaps vl) ->
  heap s !! rh = Some (OLaps hl) ->
  heap s' !! rv' = Some (OLaps vl') ->
  heap s' !! rh' = Some (OLaps hl') ->
  List.filter in_final_chart (rows vl) = List.filter in_final_chart (rows vl') ->
  List.filter in_final_chart (rows hl) = List.filter in_final_chart (rows hl') ->
  fst (create_final_laps_chart rv rh s)
  = fst (create_final_laps_chart rv' rh' s')
  /\ exists fig, fst (create_final_laps_chart rv rh s) = inr fig.
Proof.
  intros Hv Hh Hv' Hh' Ev Eh.
  rewrite (create_final_laps_chart_figure s rv rh vl hl Hv Hh).
  rewrite (create_final_laps_chart_figure s' rv' rh' vl' hl' Hv' Hh').
  rewrite Ev, Eh. split; [reflexivity | eexists; reflexivity].
Qed.

Lemma final_laps_other_laps_witness :
  fst (create_final_laps_chart 0%nat 1%nat two_full_races)
  = fst (create_final_laps_chart 1%nat 0%nat
           (mkState
              [OLaps (mkLaps (List.filter in_final_chart (full_race "HAM"))
                             None);
               OLaps (mkLaps (lap "VER" 3 None false :: full_race "VER")
                             (Some []))]
              [Markdown "---"]))
  /\ exists fig,
       fst (create_final_laps_chart 0%nat 1%nat two_full_races) = inr fig.
Proof.
  apply (final_laps_chart_ignores_other_laps
           two_full_races _ 0%nat 1%nat 1%nat 0%nat
           (mkLaps (full_race "VER") None) (mkLaps (full_race "HAM") None)
           (mkLaps (lap "VER" 3 None false :: full_race "VER") (Some []))
           (mkLaps (List.filter in_final_chart (full_race "HAM")) None));
    reflexivity.
Defined.

(** ** The race-position chart on any lap table *)

Lemma position_points (rs : list Lap) :
  points (map LapNumber rs) (map Position rs)
  = map (fun l => (LapNumber l, Position l)) rs.
Proof.
  unfold points. induction rs as [|l rs IH]; cbn; [reflexivity|].
  now rewrite IH.
Qed.

(** X7: the race-position chart plots one point per lap of the driver, in
    table order and under the lap's own number: laps without a lap time and
    laps whose position is missing are plotted like the others, laps of
    other drivers never, and a driver without laps gives an empty series
    rather than an error.  The only overlay is the marker at lap 58. *)
Theorem position_chart_plots_every_lap_of_the_driver session s df :
  heap s !! laps session = Some (OLaps df) ->
  exists fig s' vx vy hx hy,
    create_position_chart session s = (inr fig, s')
    /\ data fig
       = [lines_markers (Ints vx) (Floats vy) "Verstappen"
                        (line "#E74C3C" 4) 6;
          lines_markers (Ints hx) (Floats hy) "Hamilton"
                        (line "#3498DB" 4) 6]
    /\ points vx vy
       = map (fun l => (LapNumber l, Position l))
             (driven_by "VER" (rows df))
    /\ points hx hy
       = map (fun l => (LapNumber l, Position l))
             (driven_by "HAM" (rows df))
    /\ (forall p,
          In p (points vx vy) <->
          exists l, In l (rows df) /\ Driver l = "VER"
                    /\ p = (LapNumber l, Position l))
    /\ (forall p,
          In p (points hx hy) <->
          exists l, In l (rows df) /\ Driver l = "HAM"
                    /\ p = (LapNumber l, Position l))
    /\ shapes fig = [VLine 58 (mkLine "lime" None (Some "dash"))]
    /\ annotations fig = [mkAnnotation "Final Lap Overtake" (Some "top")].
Proof.
  intros H.
  assert (P : forall d p,
             In p (map (fun l => (LapNumber l, Position l))
                       (driven_by d (rows df))) <->
             exists l, In l (rows df) /\ Driver l = d
                       /\ p = (LapNumber l, Position l)).
  { intros d p. rewrite in_map_iff. split.
    - intros (l & <- & Hl). apply in_driven_by in Hl as [Hl Hd]. eauto.
    - intros (l & Hl & Hd & ->). exists l. split; [reflexivity|].
      now apply in_driven_by. }
  open_state s. unfold create_position_chart.
  do 8 run.
  do 2 eexists.
  exists (map LapNumber (driven_by "VER" (rows df))),
         (map Position (driven_by "VER" (rows df))),
         (map LapNumber (driven_by "HAM" (rows df))),
         (map Position (driven_by "HAM" (rows df))).
  split; [reflexivity|].
  cbn [data shapes annotations update_layout add_trace add_vline go_Figure
       app rows getitem_mask].
  rewrite !mask_select_map. fold (driven_by "VER" (rows df)).
  fold (driven_by "HAM" (rows df)). rewrite !position_points.
  repeat split; try reflexivity; apply P.
Qed.

Lemma position_chart_every_lap_witness :
  exists fig s' vx vy hx hy,
    create_position_chart race (loaded ver_never_timed) = (inr fig, s')
    /\ data fig
       = [lines_markers (Ints vx) (Floats vy) "Verstappen"
                        (line "#E74C3C" 4) 6;
          lines_markers (Ints hx) (Floats hy) "Hamilton"
                        (line "#3498DB" 4) 6]
    /\ points vx vy
       = map (fun l => (LapNumber l, Position l))
             (driven_by "VER" (rows (mkLaps ver_never_timed None)))
    /\ points hx hy
       = map (fun l => (LapNumber l, Position l))
             (driven_by "HAM" (rows (mkLaps ver_never_timed None)))
    /\ (forall p,
          In p (points vx vy) <->
          exists l, In l (rows (mkLaps ver_never_timed None))
                    /\ Driver l = "VER"
                    /\ p = (LapNumber l, Position l))
    /\ (forall p,
          In p (points hx hy) <->
          exists l, In l (rows (mkLaps ver_never_timed None))
                    /\ Driver l = "HAM"
                    /\ p = (LapNumber l, Position l))
    /\ shapes fig = [VLine 58 (mkLine "lime" None (Some "dash"))]
    /\ annotations fig = [mkAnnotation "Final Lap Overtake" (Some "top")].
Proof.
  apply (position_chart_plots_every_lap_of_the_driver
           race (loaded ver_never_timed) (mkLaps ver_never_timed None)).
  reflexivity.
Defined.

(** ** get_telemetry_data: what it allocates and how it fails *)

Lemma get_telemetry_fails session l e s :
  car_data session l = inl e ->
  get_telemetry session (Some l) s = (inl e, s).
Proof. intros H. unfold get_telemetry. now rewrite H. Qed.

(** X8: when it succeeds, [get_telemetry_data] leaves every existing
    object and the page as they are and returns four new objects, distinct
    from each other and from the session's lap table: the two telemetry
    series and, for each driver, a table of its own holding that driver's
    rows in the order of the session's table. *)
Theorem get_telemetry_data_returns_new_objects session s df lv lh tv th :
  heap s !! laps session = Some (OLaps df) ->
  fastest (driven_by "VER" (rows df)) = Some lv ->
  fastest (driven_by "HAM" (rows df)) = Some lh ->
  car_data session lv = inr tv ->
  car_data session lh = inr th ->
  exists ver_tel ham_tel ver_laps ham_laps s',
    get_telemetry_data session s
    = (inr (ver_tel, ham_tel, ver_laps, ham_laps), s')
    /\ List.NoDup [laps session; ver_tel; ham_tel; ver_laps; ham_laps]
    /\ Forall (fun r : loc => heap s !! r = None)
              [ver_tel; ham_tel; ver_laps; ham_laps]
    /\ (forall (r : loc) o, heap s !! r = Some o -> heap s' !! r = Some o)
    /\ ui s' = ui s
    /\ length (heap s') = (length (heap s) + 6)%nat
    /\ (exists t, heap s' !! ver_laps = Some (OLaps t)
                  /\ rows t = driven_by "VER" (rows df))
    /\ (exists t, heap s' !! ham_laps = Some (OLaps t)
                  /\ rows t = driven_by "HAM" (rows df)).
Proof.
  intros H Hv Hh Tv Th.
  rewrite (get_telemetry_data_run session s df lv lh tv th H Hv Hh Tv Th).
  do 5 eexists. split; [reflexivity|].
  pose proof (lookup_lt_Some _ _ _ H) as Hlt.
  cbn [heap ui]. split; [|split; [|split; [|split; [|split; [|split]]]]].
  - repeat constructor; cbn; intros Hin;
      repeat (destruct Hin as [Hin|Hin]; try lia); exact Hin.
  - repeat constructor; apply lookup_ge_None; lia.
  - intros r o Hr. now apply lookup_app_l_Some.
  - reflexivity.
  - rewrite length_app. reflexivity.
  - exists (picked "VER" df). rewrite lookup_fresh.
    split; [reflexivity | apply rows_picked].
  - exists (picked "HAM" df). rewrite lookup_fresh.
    split; [reflexivity | apply rows_picked].
Qed.

Lemma get_telemetry_data_new_objects_witness :
  exists ver_tel ham_tel ver_laps ham_laps s',
    get_telemetry_data race (loaded short_race)
    = (inr (ver_tel, ham_tel, ver_laps, ham_laps), s')
    /\ List.NoDup [laps race; ver_tel; ham_tel; ver_laps; ham_laps]
    /\ Forall (fun r : loc => heap (loaded short_race) !! r = None)
              [ver_tel; ham_tel; ver_laps; ham_laps]
    /\ (forall (r : loc) o,
          heap (loaded short_race) !! r = Some o -> heap s' !! r = Some o)
    /\ ui s' = ui (loaded short_race)
    /\ length (heap s') = (length (heap (loaded short_race)) + 6)%nat
    /\ (exists t, heap s' !! ver_laps = Some (OLaps t)
                  /\ rows t
                     = driven_by "VER" (rows (mkLaps short_race None)))
    /\ (exists t, heap s' !! ham_laps = Some (OLaps t)
                  /\ rows t
                     = driven_by "HAM" (rows (mkLaps short_race None))).
Proof.
  apply (get_telemetry_data_returns_new_objects
           race (loaded short_race) (mkLaps short_race None)
           (lap "VER" 1 (Some (Timedelta 1 30 0)) true) ham_lap
           (series_of (lap "VER" 1 (Some (Timedelta 1 30 0)) true))
           (series_of ham_lap)); reflexivity.
Defined.

Lemma get_telemetry_data_ver_raises session s df lv e :
  heap s !! laps session = Some (OLaps df) ->
  fastest (driven_by "VER" (rows df)) = Some lv ->
  car_data session lv = inl e ->
  fst (get_telemetry_data session s) = inl e.
Proof.
  intros H Hv He. open_state s. unfold get_telemetry_data.
  do 4 run.
  fold (picked "VER" df). fold (picked "HAM" df).
  rewrite !rows_picked, Hv.
  erewrite bind_inl; [reflexivity|].
  now apply get_telemetry_fails.
Qed.

Lemma get_telemetry_data_ham_raises session s df lv tv lh e :
  heap s !! laps session = Some (OLaps df) ->
  fastest (driven_by "VER" (rows df)) = Some lv ->
  car_data session lv = inr tv ->
  fastest (driven_by "HAM" (rows df)) = Some lh ->
  car_data session lh = inl e ->
  fst (get_telemetry_data session s) = inl e.
Proof.
  intros H Hv Tv Hh He. open_state s. unfold get_telemetry_data.
  do 4 run.
  fold (picked "VER" df). fold (picked "HAM" df).
  rewrite !rows_picked, Hv, Hh.
  run_tel Tv.
  erewrite bind_inl; [reflexivity|].
  now apply get_telemetry_fails.
Qed.

(** X9: a failure of the provider surfaces unchanged and in source order:
    when the provider raises for Verstappen's fastest lap, that exception
    is what [get_telemetry_data] raises, whatever holds for Hamilton, even
    when Hamilton has no fastest lap at all; the provider's exception for
    Hamilton's lap is raised only when Verstappen's telemetry was
    delivered. *)
Theorem provider_failure_surfaces_in_source_order session s df lv :
  heap s !! laps session = Some (OLaps df) ->
  fastest (driven_by "VER" (rows df)) = Some lv ->
  (forall e,
      car_data session lv = inl e ->
      fst (get_telemetry_data session s) = inl e)
  /\ (forall tv lh e,
        car_data session lv = inr tv ->
        fastest (driven_by "HAM" (rows df)) = Some lh ->
        car_data session lh = inl e ->
        fst (get_telemetry_data session s) = inl e).
Proof.
  intros H Hv. split.
  - intros e He. now apply (get_telemetry_data_ver_raises session s df lv).
  - intros tv lh e Tv Hh He.
    now apply (get_telemetry_data_ham_raises session s df lv tv lh).
Qed.

Lemma provider_failure_witness :
  (forall e,
      car_data (mkSession 0%nat no_ver_telemetry)
               (lap "VER" 1 (Some (Timedelta 1 30 0)) true) = inl e ->
      fst (get_telemetry_data (mkSession 0%nat no_ver_telemetry)
                              (loaded short_race)) = inl e)
  /\ (forall tv lh e,
        car_data (mkSession 0%nat no_ver_telemetry)
                 (lap "VER" 1 (Some (Timedelta 1 30 0)) true) = inr tv ->
        fastest (driven_by "HAM" (rows (mkLaps short_race None))) = Some lh ->
        car_data (mkSession 0%nat no_ver_telemetry) lh = inl e ->
        fst (get_telemetry_data (mkSession 0%nat no_ver_telemetry)
                                (loaded short_race)) = inl e).
Proof.
  apply (provider_failure_surfaces_in_source_order
           (mkSession 0%nat no_ver_telemetry) (loaded short_race)
           (mkLaps short_race None)
           (lap "VER" 1 (Some (Timedelta 1 30 0)) true)); reflexivity.
Defined.

(** ** Loading: the cache directory and the session returned *)

(** X10: the cache directory is created only when it is missing: when it
    exists the outcome of the load does not depend on what creating it
    would do, and when it is missing and can be created the load goes on
    exactly as if it had existed; when it cannot be created, that exception
    is reported and nothing else is attempted. *)
Theorem cache_directory_is_created_only_when_missing env s :
  (cache_exists env = true ->
   forall m,
     load_race_data
       (mkEnv true m (enable_cache env) (get_session env) (session_load env))
       s
     = load_race_data env s)
  /\ (cache_exists env = false -> makedirs env = None ->
      load_race_data env s
      = load_race_data
          (mkEnv true None (enable_cache env) (get_session env)
                 (session_load env)) s)
  /\ (cache_exists env = false ->
      forall e,
        makedirs env = Some e ->
        load_race_data env s
        = (inr None,
           mkState (heap s)
                   (ui s ++ [Error ("Error loading data: " +:+ str_exn e)]))).
Proof.
  split; [|split].
  - intros Hc m. destruct env as [c mk ec gs sl]. cbn in Hc. subst c.
    reflexivity.
  - intros Hc Hm. destruct env as [c mk ec gs sl]. cbn in Hc, Hm. subst.
    reflexivity.
  - intros Hc e Hm. destruct env as [c mk ec gs sl]. cbn in Hc, Hm. subst.
    reflexivity.
Qed.


(** ** The dispatcher, section by section *)

Section Sections.

Variable add_distance : Telemetry -> Telemetry.
Variables (env : Env) (s : state) (tbl : Laps).
Variable cd : Lap -> exn + Telemetry.
Variables (lv lh : Lap) (tv th : Telemetry).

Hypothesis Hready : cache_ready env.
Hypothesis Hsession : get_session env = None.
Hypothesis Hload : session_load env = inr (tbl, cd).
Hypothesis Hver : fastest (driven_by "VER" (rows tbl)) = Some lv.
Hypothesis Hham : fastest (driven_by "HAM" (rows tbl)) = Some lh.
Hypothesis Hvtel : cd lv = inr tv.
Hypothesis Hhtel : cd lh = inr th.

Lemma main_dispatches selected :
  main add_distance selected env s
  = bind (render_section add_distance selected
            (mkSession (length (heap s)) cd)
            (length (heap s) + 3)%nat (length (heap s) + 4)%nat
            (length (heap s) + 5)%nat (length (heap s) + 6)%nat)
         (fun _ => st_all footer)
         (selected_state s tbl tv th).
Proof.
  unfold main.
  rewrite (bind_inr _ _ _ _ _ (st_all_run page_head s)).
  rewrite (bind_inr _ _ _ _ _
             (load_race_data_loads env tbl cd _ Hready Hsession Hload)).
  cbn [heap ui].
  erewrite bind_inr;
    [ | eapply (get_telemetry_data_run _ _ tbl lv lh tv th);
        [ cbn [heap laps]; apply list_lookup_middle; reflexivity
        | eassumption .. ] ].
  cbn [heap ui]. unfold selected_state.
  rewrite <- (app_assoc (heap s)), <- (app_assoc (ui s)).
  rewrite length_app. cbn [length app].
  replace (length (heap s) + 1 + 2)%nat with (length (heap s) + 3)%nat
    by lia.
  replace (length (heap s) + 1 + 3)%nat with (length (heap s) + 4)%nat
    by lia.
  replace (length (heap s) + 1 + 4)%nat with (length (heap s) + 5)%nat
    by lia.
  replace (length (heap s) + 1 + 5)%nat with (length (heap s) + 6)%nat
    by lia.
  reflexivity.
Qed.

End Sections.

Lemma main_after_selection add_distance selected env s tbl cd lv lh tv th :
  loads env tbl cd ->
  selects tbl cd lv lh tv th ->
  main add_distance selected env s
  = bind (render_section add_distance selected
            (mkSession (length (heap s)) cd)
            (length (heap s) + 3)%nat (length (heap s) + 4)%nat
            (length (heap s) + 5)%nat (length (heap s) + 6)%nat)
         (fun _ => st_all footer)
         (selected_state s tbl tv th).
Proof.
  intros (Hr & Hg & Hl) (Hv & Hh & Tv & Th).
  now apply (main_dispatches add_distance env s tbl cd lv lh tv th).
Qed.

(** One streamlit call in a run. *)
Ltac st_step :=
  rewrite ?bind_assoc;
  rewrite (bind_inr _ _ _ _ _ (st_run _ _)); cbn [heap ui].

(** X12: the overview section plots nothing, yet [main] has selected the
    fastest-lap telemetry before dispatching: once the load and that
    selection succeed, [main] returns normally with the header, the
    spinner, the six overview widgets and the footer on the page, no chart
    among them, and with the selected telemetry and lap tables in the
    heap. *)
Theorem overview_renders_no_chart
    add_distance env s tbl cd lv lh tv th :
  loads env tbl cd ->
  selects tbl cd lv lh tv th ->
  main add_distance Overview env s
  = (inr tt,
     mkState (heap (selected_state s tbl tv th))
             (ui s ++ page_head ++ [spinner] ++ overview_widgets ++ footer))
  /\ Forall no_chart (page_head ++ [spinner] ++ overview_widgets ++ footer)
  /\ In (OTelemetry tv) (heap (selected_state s tbl tv th))
  /\ In (OTelemetry th) (heap (selected_state s tbl tv th)).
Proof.
  intros Hl Hs.
  rewrite (main_after_selection _ _ _ _ _ _ _ _ _ _ Hl Hs).
  unfold render_section, selected_state.
  do 6 st_step. rewrite st_all_run. cbn [heap ui].
  split; [|split; [|split]].
  - f_equal. f_equal. rewrite <- !(app_assoc (ui s)).
    rewrite <- !(app_assoc page_head). reflexivity.
  - repeat (apply Forall_cons; split; [intros fig; discriminate|]).
    apply Forall_nil. exact I.
  - apply in_or_app. right. cbn. tauto.
  - apply in_or_app. right. cbn. tauto.
Qed.

Lemma overview_witness :
  main (fun t => t) Overview (world short_race) blank
  = (inr tt,
     mkState (heap (selected_state blank (mkLaps short_race None)
                                   (series_of short_world_lv)
                                   (series_of ham_lap)))
             (ui blank ++ page_head ++ [spinner] ++ overview_widgets
              ++ footer))
  /\ Forall no_chart (page_head ++ [spinner] ++ overview_widgets ++ footer)
  /\ In (OTelemetry (series_of short_world_lv))
        (heap (selected_state blank (mkLaps short_race None)
                              (series_of short_world_lv)
                              (series_of ham_lap)))
  /\ In (OTelemetry (series_of ham_lap))
        (heap (selected_state blank (mkLaps short_race None)
                              (series_of short_world_lv)
                              (series_of ham_lap))).
Proof.
  apply (overview_renders_no_chart (fun t => t) (world short_race) blank
           (mkLaps short_race None) provider short_world_lv ham_lap
           (series_of short_world_lv) (series_of ham_lap)).
  - repeat split; try reflexivity. now left.
  - repeat split.
Defined.

(** X13: the strategy section renders exactly one chart, the tyre-strategy
    timeline of the hand-written stint table with one bar per record, then
    the two strategy texts and the closing remark; it reads neither the
    selected telemetry nor the lap tables. *)
Theorem strategy_section_renders_the_stint_chart
    add_distance env s tbl cd lv lh tv th :
  loads env tbl cd ->
  selects tbl cd lv lh tv th ->
  exists fig,
    main add_distance StrategyAnalysis env s
    = (inr tt,
       mkState (heap (selected_state s tbl tv th))
               (ui s ++ page_head
                ++ [spinner;
                    Markdown (html "h2" "section-header"
                                   "The Winning Strategy");
                    PlotlyChart fig;
                    Columns [1; 1];
                    Markdown hamilton_strategy_text;
                    Markdown verstappen_strategy_text;
                    Success "🎯 **Strategic Masterclass**: Red Bull's decision to pit under the Safety Car gave Verstappen a crucial tyre advantage for the final restart."]
                ++ footer))
    /\ Forall2 bar_for pit_data (data fig)
    /\ forall s0, create_tyre_strategy_chart s0 = (inr fig, s0).
Proof.
  intros Hl Hs.
  rewrite (main_after_selection _ _ _ _ _ _ _ _ _ _ Hl Hs).
  unfold render_section.
  eexists.
  split; [|split].
  - st_step. rewrite ?bind_assoc.
    erewrite bind_inr by reflexivity. do 5 st_step.
    rewrite st_all_run. cbn [heap ui selected_state].
    f_equal. f_equal. rewrite <- !(app_assoc (ui s)).
    rewrite <- !(app_assoc page_head). reflexivity.
  - vm_compute. repeat (constructor; [eexists; split; reflexivity|]).
    constructor.
  - intros s0. reflexivity.
Qed.

Lemma strategy_section_witness :
  exists fig,
    main (fun t => t) StrategyAnalysis (world short_race) blank
    = (inr tt,
       mkState (heap (selected_state blank (mkLaps short_race None)
                                     (series_of short_world_lv)
                                     (series_of ham_lap)))
               (ui blank ++ page_head
                ++ [spinner;
                    Markdown (html "h2" "section-header"
                                   "The Winning Strategy");
                    PlotlyChart fig;
                    Columns [1; 1];
                    Markdown hamilton_strategy_text;
                    Markdown verstappen_strategy_text;
                    Success "🎯 **Strategic Masterclass**: Red Bull's decision to pit under the Safety Car gave Verstappen a crucial tyre advantage for the final restart."]
                ++ footer))
    /\ Forall2 bar_for pit_data (data fig)
    /\ forall s0, create_tyre_strategy_chart s0 = (inr fig, s0).
Proof.
  apply (strategy_section_renders_the_stint_chart
           (fun t => t) (world short_race) blank
           (mkLaps short_race None) provider short_world_lv ham_lap
           (series_of short_world_lv) (series_of ham_lap)).
  - repeat split; try reflexivity. now left.
  - repeat split.
Defined.

Lemma lookup_selected (s : state) tbl tv th (k : nat) o :
  [OLaps tbl; OLaps (picked "VER" tbl); OLaps (picked "HAM" tbl);
   OTelemetry tv; OTelemetry th; OLaps (picked "VER" tbl);
   OLaps (picked "HAM" tbl)] !! k = Some o ->
  forall l,
    (heap (selected_state s tbl tv th) ++ l) !! (length (heap s) + k)%nat
    = Some o.
Proof.
  intros H l. unfold selected_state. cbn [heap].
  rewrite <- (app_assoc (heap s)), lookup_fresh.
  now apply lookup_app_l_Some.
Qed.

(** X14: the race-pace section renders the lap-time chart, the pace text
    and the final-laps chart, in this order, both charts from the per-driver
    lap tables selected by [get_telemetry_data]: the first plots lap number
    against seconds for the timed laps of each driver in the session's
    table, and the points of the second are those of the first with lap
    number 49 or more. *)
Theorem race_pace_section_renders_both_charts
    add_distance env s tbl cd lv lh tv th :
  loads env tbl cd ->
  selects tbl cd lv lh tv th ->
  exists s' full last vx vy hx hy fx fy gx gy,
    main add_distance RacePace env s = (inr tt, s')
    /\ ui s'
       = ui s ++ page_head
         ++ [spinner;
             Markdown (html "h2" "section-header" "Lap Time Evolution");
             Columns [2; 1];
             PlotlyChart full;
             Markdown race_pace_text;
             PlotlyChart last]
         ++ footer
    /\ data full
       = [lines_markers (Ints vx) (Floats vy) "Verstappen"
                        (line "#E74C3C" 3) 6;
          lines_markers (Ints hx) (Floats hy) "Hamilton"
                        (line "#3498DB" 3) 6]
    /\ data last
       = [lines_markers (Ints fx) (Floats fy) "Verstappen"
                        (line "#E74C3C" 4) 8;
          lines_markers (Ints gx) (Floats gy) "Hamilton"
                        (line "#3498DB" 4) 8]
    /\ points vx vy
       = map (fun l => (LapNumber l, total_seconds <$> LapTime l))
             (List.filter timed (driven_by "VER" (rows tbl)))
    /\ points hx hy
       = map (fun l => (LapNumber l, total_seconds <$> LapTime l))
             (List.filter timed (driven_by "HAM" (rows tbl)))
    /\ points fx fy
       = List.filter (fun p : Z * float => 49 <=? fst p) (points vx vy)
    /\ points gx gy
       = List.filter (fun p : Z * float => 49 <=? fst p) (points hx hy).
Proof.
  intros Hl Hs.
  rewrite (main_after_selection _ _ _ _ _ _ _ _ _ _ Hl Hs).
  unfold render_section.
  do 2 st_step. rewrite ?bind_assoc.
  match goal with
  | |- context [bind (create_laptime_chart ?a ?b) _ ?s0] =>
      destruct (create_laptime_chart_run s0 a b
                  (picked "VER" tbl) (picked "HAM" tbl))
        as (full & Hfull & Dfull & _);
      [ cbn [heap];
        rewrite <- (app_nil_r (heap (selected_state s tbl tv th)));
        now apply lookup_selected ..
      | ]
  end.
  rewrite (bind_inr _ _ _ _ _ Hfull). cbn [heap ui].
  do 2 st_step. rewrite ?bind_assoc.
  match goal with
  | |- context [bind (create_final_laps_chart ?a ?b) _ ?s0] =>
      destruct (create_final_laps_chart_run s0 a b
                  (picked "VER" tbl) (picked "HAM" tbl))
        as (last & Hlast & Dlast & _);
      [ cbn [heap]; now apply lookup_selected .. | ]
  end.
  rewrite (bind_inr _ _ _ _ _ Hlast). cbn [heap ui].
  st_step. rewrite st_all_run. cbn [heap ui].
  eexists. exists full, last. do 8 eexists.
  split; [reflexivity|]. cbn [ui selected_state].
  split; [now rewrite <- !(app_assoc (ui s)), <- !(app_assoc page_head)|].
  split; [exact Dfull|]. split; [exact Dlast|].
  rewrite !points_of_rows, !rows_cleaned, !rows_picked.
  repeat split; try reflexivity.
  - rewrite <- points_of_rows. apply slice_points.
  - rewrite <- points_of_rows. apply slice_points.
Qed.

Lemma race_pace_section_witness :
  exists s' full last vx vy hx hy fx fy gx gy,
    main (fun t => t) RacePace (world short_race) blank = (inr tt, s')
    /\ ui s'
       = ui blank ++ page_head
         ++ [spinner;
             Markdown (html "h2" "section-header" "Lap Time Evolution");
             Columns [2; 1];
             PlotlyChart full;
             Markdown race_pace_text;
             PlotlyChart last]
         ++ footer
    /\ data full
       = [lines_markers (Ints vx) (Floats vy) "Verstappen"
                        (line "#E74C3C" 3) 6;
          lines_markers (Ints hx) (Floats hy) "Hamilton"
                        (line "#3498DB" 3) 6]
    /\ data last
       = [lines_markers (Ints fx) (Floats fy) "Verstappen"
                        (line "#E74C3C" 4) 8;
          lines_markers (Ints gx) (Floats gy) "Hamilton"
                        (line "#3498DB" 4) 8]
    /\ points vx vy
       = map (fun l => (LapNumber l, total_seconds <$> LapTime l))
             (List.filter timed (driven_by "VER" (rows (mkLaps short_race None))))
    /\ points hx hy
       = map (fun l => (LapNumber l, total_seconds <$> LapTime l))
             (List.filter timed (driven_by "HAM" (rows (mkLaps short_race None))))
    /\ points fx fy
       = List.filter (fun p : Z * float => 49 <=? fst p) (points vx vy)
    /\ points gx gy
       = List.filter (fun p : Z * float => 49 <=? fst p) (points hx hy).
Proof.
  apply (race_pace_section_renders_both_charts
           (fun t => t) (world short_race) blank
           (mkLaps short_race None) provider short_world_lv ham_lap
           (series_of short_world_lv) (series_of ham_lap)).
  - repeat split; try reflexivity. now left.
  - repeat split.
Defined.

(** One operation on tables or series, and one [ret], in a run. *)
Ltac op_step := rewrite ?bind_assoc; run.
Ltac ret_step := rewrite ?bind_assoc; erewrite bind_inr by reflexivity.

(** X15: the telemetry section renders five charts in tab order, speed,
    throttle, braking, gears and RPM, each followed by its remark, all from
    the two fastest-lap series selected by [get_telemetry_data]; with
    boolean brake columns all five builders succeed, and the two selected
    series are in the heap afterwards as they were delivered. *)
Theorem telemetry_section_renders_five_charts
    add_distance env s tbl cd lv lh tv th bv bh :
  loads env tbl cd ->
  selects tbl cd lv lh tv th ->
  Brake tv = Bools bv ->
  Brake th = Bools bh ->
  exists s' speed throttle brake gear rpm,
    main add_distance TelemetryAnalysis env s = (inr tt, s')
    /\ ui s'
       = ui s ++ page_head
         ++ [spinner;
             Markdown (html "h2" "section-header"
                            "Fastest Lap Telemetry Comparison");
             Tabs ["🏎️ Speed"; "🚀 Throttle"; "🛑 Braking"; "⚙️ Gears";
                   "🔄 RPM"];
             PlotlyChart speed;
             Info "💡 **Key Insight**: Verstappen carries more speed through technical sections, particularly Turn 5 and Turn 9.";
             PlotlyChart throttle;
             Info "💡 **Key Insight**: More aggressive throttle application by Verstappen out of slow-speed corners.";
             PlotlyChart brake;
             Info "💡 **Key Insight**: Different braking patterns show contrasting driving styles and setup approaches.";
             PlotlyChart gear;
             Info "💡 **Key Insight**: Gear usage patterns reveal acceleration and cornering strategies.";
             PlotlyChart rpm;
             Info "💡 **Key Insight**: RPM differences indicate power delivery and engine mapping strategies."]
         ++ footer
    /\ data speed
       = [lines (Floats (Distance tv)) (Floats (Speed tv)) "Verstappen"
                (line "#E74C3C" 3);
          lines (Floats (Distance th)) (Floats (Speed th)) "Hamilton"
                (line "#3498DB" 3)]
    /\ data throttle
       = [lines (Floats (Distance tv)) (Floats (Throttle tv)) "Verstappen"
                (line "#FF6B35" 3);
          lines (Floats (Distance th)) (Floats (Throttle th)) "Hamilton"
                (line "#2ECC71" 3)]
    /\ data brake
       = [lines (Floats (Distance tv))
                (Ints (map (fun b : bool => if b then 1 else 0) bv))
                "Verstappen" (line "#9B59B6" 3);
          lines (Floats (Distance th))
                (Ints (map (fun b : bool => if b then 1 else 0) bh))
                "Hamilton" (line "#1ABC9C" 3)]
    /\ data gear
       = [lines (Floats (Distance tv)) (Ints (nGear tv)) "Verstappen"
                (line "#E74C3C" 3);
          lines (Floats (Distance th)) (Ints (nGear th)) "Hamilton"
                (line "#3498DB" 3)]
    /\ data rpm
       = [lines (Floats (Distance tv)) (Floats (RPM tv)) "Verstappen"
                (line "#E74C3C" 3);
          lines (Floats (Distance th)) (Floats (RPM th)) "Hamilton"
                (line "#3498DB" 3)]
    /\ heap s' !! (length (heap s) + 3)%nat = Some (OTelemetry tv)
    /\ heap s' !! (length (heap s) + 4)%nat = Some (OTelemetry th).
Proof.
  intros Hl Hs Bv Bh.
  rewrite (main_after_selection _ _ _ _ _ _ _ _ _ _ Hl Hs).
  unfold render_section, selected_state.
  do 2 st_step.
  unfold create_speed_chart. do 4 op_step. ret_step. do 2 st_step.
  unfold create_throttle_chart. do 4 op_step. ret_step. do 2 st_step.
  unfold create_brake_chart. do 3 op_step.
  rewrite Bv. cbn [astype_int lift]. ret_step. do 2 op_step.
  rewrite Bh. cbn [astype_int lift]. ret_step. do 5 op_step. ret_step.
  do 2 st_step.
  unfold create_gear_chart. do 4 op_step. ret_step. do 2 st_step.
  unfold create_rpm_chart. do 4 op_step. ret_step. do 2 st_step.
  rewrite st_all_run. cbn [heap ui].
  do 6 eexists.
  split; [reflexivity|]. cbn [ui heap].
  split; [now rewrite <- !(app_assoc (ui s)), <- !(app_assoc page_head)|].
  do 5 (split; [reflexivity|]).
  rewrite !lookup_fresh. split; reflexivity.
Qed.

Lemma telemetry_section_witness :
  exists s' speed throttle brake gear rpm,
    main (fun t => t) TelemetryAnalysis (world short_race) blank = (inr tt, s')
    /\ ui s'
       = ui blank ++ page_head
         ++ [spinner;
             Markdown (html "h2" "section-header"
                            "Fastest Lap Telemetry Comparison");
             Tabs ["🏎️ Speed"; "🚀 Throttle"; "🛑 Braking"; "⚙️ Gears";
                   "🔄 RPM"];
             PlotlyChart speed;
             Info "💡 **Key Insight**: Verstappen carries more speed through technical sections, particularly Turn 5 and Turn 9.";
             PlotlyChart throttle;
             Info "💡 **Key Insight**: More aggressive throttle application by Verstappen out of slow-speed corners.";
             PlotlyChart brake;
             Info "💡 **Key Insight**: Different braking patterns show contrasting driving styles and setup approaches.";
             PlotlyChart gear;
             Info "💡 **Key Insight**: Gear usage patterns reveal acceleration and cornering strategies.";
             PlotlyChart rpm;
             Info "💡 **Key Insight**: RPM differences indicate power delivery and engine mapping strategies."]
         ++ footer
    /\ data speed
       = [lines (Floats (Distance (series_of short_world_lv))) (Floats (Speed (series_of short_world_lv))) "Verstappen"
                (line "#E74C3C" 3);
          lines (Floats (Distance (series_of ham_lap))) (Floats (Speed (series_of ham_lap))) "Hamilton"
                (line "#3498DB" 3)]
    /\ data throttle
       = [lines (Floats (Distance (series_of short_world_lv))) (Floats (Throttle (series_of short_world_lv))) "Verstappen"
                (line "#FF6B35" 3);
          lines (Floats (Distance (series_of ham_lap))) (Floats (Throttle (series_of ham_lap))) "Hamilton"
                (line "#2ECC71" 3)]
    /\ data brake
       = [lines (Floats (Distance (series_of short_world_lv)))
                (Ints (map (fun b : bool => if b then 1 else 0) []))
                "Verstappen" (line "#9B59B6" 3);
          lines (Floats (Distance (series_of ham_lap)))
                (Ints (map (fun b : bool => if b then 1 else 0) []))
                "Hamilton" (line "#1ABC9C" 3)]
    /\ data gear
       = [lines (Floats (Distance (series_of short_world_lv))) (Ints (nGear (series_of short_world_lv))) "Verstappen"
                (line "#E74C3C" 3);
          lines (Floats (Distance (series_of ham_lap))) (Ints (nGear (series_of ham_lap))) "Hamilton"
                (line "#3498DB" 3)]
    /\ data rpm
       = [lines (Floats (Distance (series_of short_world_lv))) (Floats (RPM (series_of short_world_lv))) "Verstappen"
                (line "#E74C3C" 3);
          lines (Floats (Distance (series_of ham_lap))) (Floats (RPM (series_of ham_lap))) "Hamilton"
                (line "#3498DB" 3)]
    /\ heap s' !! (length (heap blank) + 3)%nat = Some (OTelemetry (series_of short_world_lv))
    /\ heap s' !! (length (heap blank) + 4)%nat = Some (OTelemetry (series_of ham_lap)).
Proof.
  apply (telemetry_section_renders_five_charts
           (fun t => t) (world short_race) blank
           (mkLaps short_race None) provider short_world_lv ham_lap
           (series_of short_world_lv) (series_of ham_lap) [] []).
  - repeat split; try reflexivity. now left.
  - repeat split.
  - reflexivity.
  - reflexivity.
Defined.

Lemma iloc0_run s r df l rest :
  heap s !! r = Some (OLaps df) -> rows df = l :: rest ->
  iloc0 r s = (inr l, s).
Proof.
  intros H He. unfold iloc0.
  rewrite (bind_inr _ _ _ _ _ (laps_at_run s r df H)). now rewrite He.
Qed.

Lemma with_distance_run add_distance s r t :
  heap s !! r = Some (OTelemetry t) ->
  with_distance add_distance r s
  = (inr (length (heap s)),
     mkState (heap s ++ [OTelemetry (add_distance t)]) (ui s)).
Proof.
  intros H. unfold with_distance.
  now rewrite (bind_inr _ _ _ _ _ (tel_at_run s r t H)).
Qed.

Lemma try_except_inr {A} (body : M A) handler s a s' :
  body s = (inr a, s') -> try_except body handler s = (inr a, s').
Proof. intros H. unfold try_except. now rewrite H. Qed.

Lemma rows_lap58 d tbl :
  rows (getitem_mask (picked d tbl)
          (eq_mask (map LapNumber (rows (picked d tbl))) 58))
  = lap58_rows d tbl.
Proof.
  cbn [rows getitem_mask]. unfold eq_mask. rewrite map_map.
  rewrite (mask_select_map (fun l => LapNumber l =? 58)).
  fold (rows (picked d tbl)). now rewrite rows_picked.
Qed.

(** X16: when each driver has a lap-58 record and the provider delivers its
    telemetry, the final section shows the final-lap speed chart and no
    warning.  The chart plots, per driver, speed against the distance
    column as recomputed by [add_distance] for the first lap-58 record of
    that driver in the table; the position chart comes before it and the
    closing text and footer after. *)
Theorem final_section_plots_lap_58
    add_distance env s tbl cd lv lh tv th v58 vrest h58 hrest tv58 th58 :
  loads env tbl cd ->
  selects tbl cd lv lh tv th ->
  lap58_rows "VER" tbl = v58 :: vrest ->
  lap58_rows "HAM" tbl = h58 :: hrest ->
  cd v58 = inr tv58 ->
  cd h58 = inr th58 ->
  exists s' position_fig final_fig,
    main add_distance FinalMoments env s = (inr tt, s')
    /\ ui s'
       = ui s ++ page_head
         ++ [spinner;
             Markdown (html "h2" "section-header" "The Championship Decider");
             PlotlyChart position_fig;
             Markdown "### 🏁 Lap 58 - The Overtake";
             PlotlyChart final_fig;
             Markdown decisive_moment_text]
         ++ footer
    /\ data final_fig
       = [lines (Floats (Distance (add_distance tv58)))
                (Floats (Speed (add_distance tv58))) "Verstappen"
                (line "#E74C3C" 4);
          lines (Floats (Distance (add_distance th58)))
                (Floats (Speed (add_distance th58))) "Hamilton"
                (line "#3498DB" 4)].
Proof.
  intros Hl Hs Ev Eh Tv Th.
  rewrite (main_after_selection _ _ _ _ _ _ _ _ _ _ Hl Hs).
  replace (mkSession (length (heap s)) cd)
    with (mkSession (length (heap s) + 0)%nat cd) by (f_equal; lia).
  unfold render_section, selected_state.
  st_step.
  unfold create_position_chart. cbn [laps]. do 8 op_step. ret_step.
  do 2 st_step. rewrite ?bind_assoc.
  erewrite bind_inr;
    [ | apply try_except_inr; unfold final_lap_block; cbn [laps];
        op_step;
        rewrite ?bind_assoc;
        (erewrite bind_inr; [ | eapply loc_LapNumber_run; solve_lookup ]);
        tidy;
        (erewrite bind_inr;
         [ | eapply iloc0_run;
             [ solve_lookup
             | exact (eq_trans (rows_lap58 "VER" tbl) Ev) ] ]);
        op_step;
        (erewrite bind_inr; [ | eapply loc_LapNumber_run; solve_lookup ]);
        tidy;
        (erewrite bind_inr;
         [ | eapply iloc0_run;
             [ solve_lookup
             | exact (eq_trans (rows_lap58 "HAM" tbl) Eh) ] ]);
        cbn [car_data];
        run_tel Tv;
        (erewrite bind_inr; [ | eapply with_distance_run; solve_lookup ]);
        tidy;
        run_tel Th;
        (erewrite bind_inr; [ | eapply with_distance_run; solve_lookup ]);
        tidy;
        do 4 op_step;
        apply st_run ].
  cbn [heap ui]. st_step. rewrite st_all_run. cbn [heap ui].
  do 3 eexists. split; [reflexivity|]. cbn [ui].
  split; [now rewrite <- !(app_assoc (ui s)), <- !(app_assoc page_head)|].
  reflexivity.
Qed.

Lemma final_section_witness :
  exists s' position_fig final_fig,
    main (fun t => t) FinalMoments (world finished_race) blank = (inr tt, s')
    /\ ui s'
       = ui blank ++ page_head
         ++ [spinner;
             Markdown (html "h2" "section-header" "The Championship Decider");
             PlotlyChart position_fig;
             Markdown "### 🏁 Lap 58 - The Overtake";
             PlotlyChart final_fig;
             Markdown decisive_moment_text]
         ++ footer
    /\ data final_fig
       = [lines (Floats (Distance ((fun t => t) (series_of (lap "VER" 58 (Some (Timedelta 1 26 103)) true)))))
                (Floats (Speed ((fun t => t) (series_of (lap "VER" 58 (Some (Timedelta 1 26 103)) true))))) "Verstappen"
                (line "#E74C3C" 4);
          lines (Floats (Distance ((fun t => t) (series_of (lap "HAM" 58 (Some (Timedelta 1 28 400)) false)))))
                (Floats (Speed ((fun t => t) (series_of (lap "HAM" 58 (Some (Timedelta 1 28 400)) false))))) "Hamilton"
                (line "#3498DB" 4)].
Proof.
  apply (final_section_plots_lap_58
           (fun t => t) (world finished_race) blank
           (mkLaps finished_race None) provider
           (lap "VER" 58 (Some (Timedelta 1 26 103)) true)
           (lap "HAM" 57 (Some (Timedelta 1 27 500)) true)
           (series_of (lap "VER" 58 (Some (Timedelta 1 26 103)) true))
           (series_of (lap "HAM" 57 (Some (Timedelta 1 27 500)) true))
           (lap "VER" 58 (Some (Timedelta 1 26 103)) true)
           [lap "VER" 58 None false]
           (lap "HAM" 58 (Some (Timedelta 1 28 400)) false)
           []
           (series_of (lap "VER" 58 (Some (Timedelta 1 26 103)) true))
           (series_of (lap "HAM" 58 (Some (Timedelta 1 28 400)) false))).
  - repeat split; try reflexivity. now left.
  - repeat split.
  - reflexivity.
  - reflexivity.
  - reflexivity.
  - reflexivity.
Defined.

(** ** Failures that leave [main] *)

Lemma get_telemetry_data_keeps_page session s :
  ui (snd (get_telemetry_data session s)) = ui s.
Proof.
  assert (K : keeps (page_is (ui s)) (get_telemetry_data session)
                    (fun _ => True)).
  { pose proof (page_alloc (ui s)). pose proof (page_assign (ui s)).
    unfold get_telemetry_data. keeps_auto (fun _ : loc => True). }
  apply (K s). reflexivity.
Qed.

Lemma selection_fails_run session s tbl e :
  heap s !! laps session = Some (OLaps tbl) ->
  selection_fails tbl (car_data session) e ->
  fst (get_telemetry_data session s) = inl e.
Proof.
  intros H [Hv -> | lv Hv He | lv tv Hv Tv Hh -> | lv lh tv Hv Tv Hh He].
  - now apply (get_telemetry_data_no_ver session s tbl).
  - now apply (get_telemetry_data_ver_raises session s tbl lv).
  - now apply (get_telemetry_data_no_ham session s tbl lv tv).
  - now apply (get_telemetry_data_ham_raises session s tbl lv tv lh).
Qed.

(** X17: a failure of the selection of the fastest-lap telemetry, whether
    a driver has no fastest lap or the provider raises, leaves [main]
    uncaught in every section, with the exception as raised: the page then
    holds the header and the spinner only, and neither the selected
    section nor the footer. *)
Theorem selection_failure_leaves_main_in_every_section
    add_distance selected env s tbl cd e :
  loads env tbl cd ->
  selection_fails tbl cd e ->
  fst (main add_distance selected env s) = inl e
  /\ ui (snd (main add_distance selected env s))
     = ui s ++ page_head ++ [spinner].
Proof.
  intros (Hr & Hg & Hl) Hf.
  unfold main.
  rewrite (bind_inr _ _ _ _ _ (st_all_run page_head s)).
  rewrite (bind_inr _ _ _ _ _
             (load_race_data_loads env tbl cd _ Hr Hg Hl)).
  cbn [heap ui].
  set (session := mkSession (length (heap s)) cd).
  set (s2 := mkState (heap s ++ [OLaps tbl])
                     ((ui s ++ page_head) ++ [spinner])).
  assert (Hfail : fst (get_telemetry_data session s2) = inl e).
  { apply (selection_fails_run session s2 tbl); [|exact Hf].
    apply list_lookup_middle. reflexivity. }
  pose proof (get_telemetry_data_keeps_page session s2) as Hpage.
  destruct (get_telemetry_data session s2) as [[e'|x] s3] eqn:Hrun;
    cbn [fst snd] in Hfail, Hpage; [|discriminate Hfail].
  injection Hfail as ->.
  rewrite (bind_inl _ _ _ _ _ Hrun). cbn [fst snd].
  split; [reflexivity|].
  rewrite Hpage. unfold s2. cbn [ui].
  now rewrite <- (app_assoc (ui s)).
Qed.

Lemma selection_failure_witness :
  fst (main (fun t => t) StrategyAnalysis (world ver_never_timed) blank)
  = inl no_attribute
  /\ ui (snd (main (fun t => t) StrategyAnalysis (world ver_never_timed)
                   blank))
     = ui blank ++ page_head ++ [spinner].
Proof.
  apply (selection_failure_leaves_main_in_every_section
           (fun t => t) StrategyAnalysis (world ver_never_timed) blank
           (mkLaps ver_never_timed None) provider no_attribute).
  - repeat split; try reflexivity. now left.
  - apply ver_has_no_fastest_lap; reflexivity.
Defined.

(** ** What [main] never does: it only adds to the heap and to the page *)

Lemma keeps_try_except {A} (I : state -> Prop) (body : M A)
    (handler : exn -> M A) post :
  keeps I body post ->
  (forall e, keeps I (handler e) post) ->
  keeps I (try_except body handler) post.
Proof.
  intros Hb Hh s Hs. unfold try_except.
  destruct (Hb s Hs) as [Hi Hp].
  destruct (body s) as [[e|a] s']; cbn in *.
  - apply (Hh e s' Hi).
  - split; [exact Hi|]. intros a' [= <-]. now apply Hp.
Qed.

Section Grown.

Variable h0 : list object.
Variable u0 : list widget.

Lemma grown_alloc h u o :
  grown h0 u0 (mkState h u) ->
  grown h0 u0 (mkState (h ++ [o]) u) /\ (length h0 <= length h)%nat.
Proof.
  intros [[l Hl] Hu]. cbn in *. subst h. split; [split|].
  - exists (l ++ [o]). cbn. now rewrite app_assoc.
  - exact Hu.
  - rewrite length_app. lia.
Qed.

Lemma grown_assign h u r o :
  (length h0 <= r)%nat -> grown h0 u0 (mkState h u) ->
  grown h0 u0 (mkState (<[r := o]> h) u).
Proof.
  intros Hr [[l Hl] Hu]. cbn in *. subst h. split; [|exact Hu].
  exists (<[(r - length h0)%nat := o]> l). cbn.
  rewrite <- insert_app_r. f_equal. lia.
Qed.

Ltac growing := pose proof grown_alloc; pose proof grown_assign.

Ltac grow :=
  growing;
  match goal with
  | |- keeps (grown ?h _) _ _ =>
      keeps_auto (fun r : loc => (length h <= r)%nat)
  end.

Lemma grown_st w : keeps (grown h0 u0) (st w) (fun _ => True).
Proof.
  intros s [Hh [ws Hu]]. cbn. split; [|trivial]. split; [exact Hh|].
  exists (ws ++ [w]). cbn. rewrite Hu. now rewrite <- (app_assoc u0).
Qed.

Lemma grown_st_all ws : keeps (grown h0 u0) (st_all ws) (fun _ => True).
Proof.
  induction ws as [|w ws IH]; cbn [st_all].
  - now apply keeps_ret.
  - eapply keeps_bind; [apply grown_st|]. intros _ _. exact IH.
Qed.

Lemma grown_call outcome : keeps (grown h0 u0) (call outcome) (fun _ => True).
Proof. destruct outcome; [apply keeps_raise | now apply keeps_ret]. Qed.

Lemma grown_load_race_data env :
  keeps (grown h0 u0) (load_race_data env) (fun _ => True).
Proof.
  growing. unfold load_race_data. apply keeps_try_except.
  - eapply keeps_bind.
    { destruct (negb (cache_exists env));
        [apply grown_call | now apply (keeps_ret _ tt (fun _ => True))]. }
    intros _ _. eapply keeps_bind; [apply grown_call|].
    intros _ _. eapply keeps_bind; [apply grown_st|].
    intros _ _. eapply keeps_bind; [apply grown_call|].
    intros _ _. eapply keeps_bind; [apply keeps_lift|].
    intros loaded _. eapply keeps_bind.
    { eapply keeps_alloc. eassumption. }
    intros table _. now apply keeps_ret.
  - intros e. eapply keeps_bind; [apply grown_st|].
    intros _ _. now apply keeps_ret.
Qed.

Lemma grown_get_telemetry_data session :
  keeps (grown h0 u0) (get_telemetry_data session) (fun _ => True).
Proof. unfold get_telemetry_data. grow. Qed.

Lemma grown_speed rv rh :
  keeps (grown h0 u0) (create_speed_chart rv rh) (fun _ => True).
Proof. unfold create_speed_chart. grow. Qed.

Lemma grown_throttle rv rh :
  keeps (grown h0 u0) (create_throttle_chart rv rh) (fun _ => True).
Proof. unfold create_throttle_chart. grow. Qed.

Lemma grown_brake rv rh :
  keeps (grown h0 u0) (create_brake_chart rv rh) (fun _ => True).
Proof. unfold create_brake_chart. grow. Qed.

Lemma grown_gear rv rh :
  keeps (grown h0 u0) (create_gear_chart rv rh) (fun _ => True).
Proof. unfold create_gear_chart. grow. Qed.

Lemma grown_rpm rv rh :
  keeps (grown h0 u0) (create_rpm_chart rv rh) (fun _ => True).
Proof. unfold create_rpm_chart. grow. Qed.

Lemma grown_laptime rv rh :
  keeps (grown h0 u0) (create_laptime_chart rv rh) (fun _ => True).
Proof. unfold create_laptime_chart. grow. Qed.

Lemma grown_final_laps rv rh :
  keeps (grown h0 u0) (create_final_laps_chart rv rh) (fun _ => True).
Proof. unfold create_final_laps_chart. grow. Qed.

Lemma grown_position session :
  keeps (grown h0 u0) (create_position_chart session) (fun _ => True).
Proof. unfold create_position_chart. grow. Qed.

Lemma grown_stint_bars palette table fig :
  keeps (grown h0 u0) (add_stint_bars palette table fig) (fun _ => True).
Proof.
  growing. revert fig. induction table as [|row rest IH]; intros fig; cbn.
  - now apply keeps_ret.
  - eapply keeps_bind; [apply keeps_lift|]. intros; apply IH.
Qed.

Lemma grown_tyre_strategy :
  keeps (grown h0 u0) create_tyre_strategy_chart (fun _ => True).
Proof.
  unfold create_tyre_strategy_chart, tyre_strategy_chart.
  eapply keeps_bind; [apply grown_stint_bars|].
  intros; now apply keeps_ret.
Qed.

Variable add_distance : Telemetry -> Telemetry.

Lemma grown_with_distance r :
  keeps (grown h0 u0) (with_distance add_distance r)
        (fun r' => (length h0 <= r')%nat).
Proof.
  unfold with_distance.
  eapply keeps_bind; [apply keeps_tel_at|].
  intros t _. eapply keeps_alloc. apply grown_alloc.
Qed.

(** One more widget, then the rest. *)
Ltac then_st := eapply keeps_bind; [apply grown_st | intros _ _].

(** One chart built and shown, then the rest. *)
Ltac then_chart L :=
  eapply keeps_bind; [apply L | intros ? _]; then_st.

Lemma grown_final_lap_block session :
  keeps (grown h0 u0) (final_lap_block add_distance session)
        (fun _ => True).
Proof.
  growing. unfold final_lap_block.
  do 7 (eapply keeps_bind;
        [keeps_op (fun r : loc => (length h0 <= r)%nat) | intros ? ?]).
  eapply keeps_bind; [apply grown_with_distance | intros ? ?].
  eapply keeps_bind;
    [keeps_op (fun r : loc => (length h0 <= r)%nat) | intros ? ?].
  eapply keeps_bind; [apply grown_with_distance | intros ? ?].
  do 4 (eapply keeps_bind;
        [keeps_op (fun r : loc => (length h0 <= r)%nat) | intros ? ?]).
  apply grown_st.
Qed.

Lemma grown_render_section selected session tv th lv lh :
  keeps (grown h0 u0)
        (render_section add_distance selected session tv th lv lh)
        (fun _ => True).
Proof.
  destruct selected; cbn [render_section].
  - do 5 then_st. apply grown_st.
  - do 2 then_st.
    then_chart grown_speed. then_st. then_chart grown_throttle. then_st.
    then_chart grown_brake. then_st. then_chart grown_gear. then_st.
    eapply keeps_bind; [apply grown_rpm | intros ? _]. then_st.
    apply grown_st.
  - do 2 then_st. then_chart grown_laptime. then_st.
    eapply keeps_bind; [apply grown_final_laps | intros ? _].
    apply grown_st.
  - then_st. then_chart grown_tyre_strategy. do 3 then_st.
    apply grown_st.
  - then_st. then_chart grown_position. then_st.
    eapply keeps_bind.
    { apply keeps_try_except; [apply grown_final_lap_block|].
      intros _. apply grown_st. }
    intros _ _. apply grown_st.
Qed.

(** What [main] does once the header is on the page. *)
Lemma grown_after_header selected env :
  keeps (grown h0 u0)
        (session <- load_race_data env ;;
         match session with
         | None => st load_failed
         | Some session =>
             picked <- get_telemetry_data session ;;
             let '(ver_tel, ham_tel, ver_laps, ham_laps) := picked in
             render_section add_distance selected session
                            ver_tel ham_tel ver_laps ham_laps ;;
             st_all footer
         end)%M
        (fun _ => True).
Proof.
  eapply keeps_bind; [apply grown_load_race_data|].
  intros [session|] _; [|apply grown_st].
  eapply keeps_bind; [apply grown_get_telemetry_data|].
  intros [[[tv th] lv] lh] _.
  eapply keeps_bind; [apply grown_render_section|].
  intros _ _. apply grown_st_all.
Qed.

End Grown.

(** X18: whatever the section, the answers of the outside world and the
    data, [main] only adds: every object on the heap before the call is
    the same after it, on normal and on exceptional exit, and the page
    after it is the page before it, then the header with the section
    selector, then whatever followed; nothing already shown is removed or
    replaced. *)
Theorem main_only_adds add_distance selected env s :
  (forall r o,
      heap s !! r = Some o ->
      heap (snd (main add_distance selected env s)) !! r = Some o)
  /\ exists shown,
       ui (snd (main add_distance selected env s))
       = ui s ++ page_head ++ shown.
Proof.
  unfold main.
  rewrite (bind_inr _ _ _ _ _ (st_all_run page_head s)).
  match goal with
  | |- context [bind ?m ?k ?s1] =>
      destruct (grown_after_header (heap s) (ui s ++ page_head)
                  add_distance selected env s1) as [[[l Hl] [w Hw]] _]
  end.
  { split; [exists []; cbn; now rewrite app_nil_r|].
    exists []. cbn. now rewrite app_nil_r. }
  split.
  - intros r o Hr. rewrite Hl. now apply lookup_app_l_Some.
  - exists w. rewrite Hw. now rewrite <- (app_assoc (ui s)).
Qed.

(** ** How [main] ends *)

(** X19: [main] returns normally in two ways only.  Either the load gave no
    session, and the last thing on the page is the message that the load
    failed; or the load, the selection of the telemetry and the whole
    selected section went through, and the page ends with the footer.  In
    both cases the page starts with what was there, then the header. *)
Theorem main_returns_with_footer_or_load_message
    add_distance selected env s :
  fst (main add_distance selected env s) = inr tt ->
  exists shown,
    (ui (snd (main add_distance selected env s))
     = ui s ++ page_head ++ shown ++ [load_failed]
     /\ fst (load_race_data env
               (mkState (heap s) (ui s ++ page_head))) = inr None)
    \/ (ui (snd (main add_distance selected env s))
        = ui s ++ page_head ++ shown ++ footer
        /\ exists session,
             fst (load_race_data env
                    (mkState (heap s) (ui s ++ page_head)))
             = inr (Some session)).
Proof.
  unfold main.
  rewrite (bind_inr _ _ _ _ _ (st_all_run page_head s)).
  set (s1 := mkState (heap s) (ui s ++ page_head)).
  assert (G1 : grown (heap s) (ui s ++ page_head) s1).
  { split; [exists [] | exists []]; cbn; now rewrite app_nil_r. }
  destruct (grown_load_race_data _ _ env s1 G1) as [G2 _].
  destruct (load_race_data_never_raises env s1) as (o & s2' & Hload).
  destruct (load_race_data env s1) as [[e|[session|]] s2] eqn:Eload;
    cbn [fst snd] in G2.
  - discriminate Hload.
  - rewrite (bind_inr _ _ _ _ _ Eload).
    destruct (grown_get_telemetry_data _ _ session s2 G2) as [G3 _].
    destruct (get_telemetry_data session s2)
      as [[e|[[[tv th] lv] lh]] s3] eqn:Esel; cbn [fst snd] in G3.
    { rewrite (bind_inl _ _ _ _ _ Esel). discriminate. }
    rewrite (bind_inr _ _ _ _ _ Esel).
    destruct (grown_render_section _ _ add_distance selected session
                tv th lv lh s3 G3) as [G4 _].
    destruct (render_section add_distance selected session tv th lv lh s3)
      as [[e|[]] s4] eqn:Esec; cbn [fst snd] in G4.
    { rewrite (bind_inl _ _ _ _ _ Esec). discriminate. }
    rewrite (bind_inr _ _ _ _ _ Esec), st_all_run. cbn [fst snd ui].
    intros _. destruct G4 as [_ [w Hw]]. exists w. right.
    split; [|now exists session].
    rewrite Hw. rewrite <- (app_assoc (ui s)), <- (app_assoc (ui s)).
    now rewrite <- (app_assoc page_head).
  - rewrite (bind_inr _ _ _ _ _ Eload), st_run. cbn [fst snd ui].
    intros _. destruct G2 as [_ [w Hw]]. exists w. left.
    split; [|reflexivity].
    rewrite Hw. rewrite <- (app_assoc (ui s)), <- (app_assoc (ui s)).
    now rewrite <- (app_assoc page_head).
Qed.

Lemma main_returns_witness :
  fst (main (fun t => t) Overview (world short_race) blank) = inr tt
  /\ exists shown,
       (ui (snd (main (fun t => t) Overview (world short_race) blank))
        = ui blank ++ page_head ++ shown ++ [load_failed]
        /\ fst (load_race_data (world short_race)
                  (mkState (heap blank) (ui blank ++ page_head)))
           = inr None)
       \/ (ui (snd (main (fun t => t) Overview (world short_race) blank))
           = ui blank ++ page_head ++ shown ++ footer
           /\ exists session,
                fst (load_race_data (world short_race)
                       (mkState (heap blank) (ui blank ++ page_head)))
                = inr (Some session)).
Proof.
  split; [reflexivity|].
  apply (main_returns_with_footer_or_load_message
           (fun t => t) Overview (world short_race) blank).
  reflexivity.
Defined.
